(** * noma: Markdown normalisation with one level of nested formatting

    A shallow embedding of [src/normalizeMarkdown.ts].  The module keeps two
    [unified] processors: [baseProcessor] (parse, then stringify) and
    [processor] (parse, then the [remarkRecursiveFormat] transformer, then
    stringify).  [remark-parse] and [remark-stringify] are npm dependencies;
    they enter the development as section variables that may throw. *)

From Stdlib Require Import List NArith Ascii String Bool Lia.
Import ListNotations.

Set Warnings "-register-all".

(** ** JavaScript strings

    A JavaScript string is a sequence of UTF-16 code units; [===] compares
    the sequences, and the empty string is the only falsy one. *)
Module JS.

Definition str : Type := list N.

(** An ASCII literal of the source, as code units. *)
Definition lit (s : string) : str :=
  List.map N_of_ascii (list_ascii_of_string s).

Fixpoint eqb (a b : str) : bool :=
  match a, b with
  | [], [] => true
  | x :: a', y :: b' => N.eqb x y && eqb a' b'
  | _, _ => false
  end.

(** The empty string, [''] in the source. *)
Definition empty : str := [].

(** ToBoolean on a string. *)
Definition truthy (s : str) : bool :=
  match s with
  | [] => false
  | _ :: _ => true
  end.

(** WhiteSpace and LineTerminator of ECMAScript: TAB, LF, VT, FF, CR, SP,
    NBSP, U+1680, U+2000..U+200A, U+2028, U+2029, U+202F, U+205F, U+3000
    and U+FEFF. *)
Definition isWhiteSpace (c : N) : bool :=
  ((9 <=? c) && (c <=? 13)
   || (c =? 32) || (c =? 160) || (c =? 5760)
   || (8192 <=? c) && (c <=? 8202)
   || (c =? 8232) || (c =? 8233) || (c =? 8239) || (c =? 8287)
   || (c =? 12288) || (c =? 65279))%N.

Fixpoint trimStart (s : str) : str :=
  match s with
  | [] => []
  | c :: s' => if isWhiteSpace c then trimStart s' else s
  end.

Definition trimEnd (s : str) : str := rev (trimStart (rev s)).

(** String.prototype.trim: both ends. *)
Definition trim (s : str) : str := trimEnd (trimStart s).

(** ASCII case folding; used where the spec speaks of a case-insensitive
    comparison of a language tag. *)
Definition lowerUnit (c : N) : N :=
  if ((65 <=? c) && (c <=? 90))%N then (c + 32)%N else c.

Definition asciiLower (s : str) : str := List.map lowerUnit s.

(** A run of white space. *)
Definition blank (s : str) : Prop :=
  Forall (fun c => isWhiteSpace c = true) s.

End JS.

Abbreviation str := JS.str.

(** ** Thrown values and results

    Anything can be thrown in JavaScript; the source only asks whether the
    value is an [Error] instance, and reads its [message] if so. *)
Inductive Thrown : Type :=
| ErrorInstance (message : str)
| NonError (shown : str).

Inductive Result (A : Type) : Type :=
| Ok (a : A)
| Throw (e : Thrown).

Arguments Ok {A} a.
Arguments Throw {A} e.

(** ** Computations: the console and a possible throw

    [console.error] appends a line to standard error.  What was written
    before a throw stays written. *)
Definition Console : Type := list str.

Definition M (A : Type) : Type := Console -> Result A * Console.

Definition ret {A} (a : A) : M A := fun w => (Ok a, w).

Definition bind {A B} (m : M A) (k : A -> M B) : M B :=
  fun w =>
    match m w with
    | (Ok a, w') => k a w'
    | (Throw e, w') => (Throw e, w')
    end.

Definition lift {A} (r : Result A) : M A := fun w => (r, w).

Definition try_catch {A} (body : M A) (handler : Thrown -> M A) : M A :=
  fun w =>
    match body w with
    | (Ok a, w') => (Ok a, w')
    | (Throw e, w') => handler e w'
    end.

Definition console_error (line : str) : M unit :=
  fun w => (Ok tt, w ++ [line]).

Declare Scope js_scope.
Delimit Scope js_scope with js.
Notation "x <- m ;; k" := (bind m (fun x => k))
  (at level 61, m at next level, right associativity) : js_scope.
Notation "m ;;; k" := (bind m (fun _ => k))
  (at level 61, right associativity) : js_scope.
Open Scope js_scope.

(** ** mdast

    The syntax tree of [npm:@types/mdast], CommonMark part.  The transformer
    looks at [code] nodes only; every other node is a kind with its own
    fields and, for parents, its children. *)
Module Mdast.

Inductive ReferenceType : Type := shortcut | collapsed | full.

Inductive Kind : Type :=
| root
| paragraph
| heading (depth : nat)
| thematicBreak
| blockquote
| list (ordered : bool) (start : option nat) (spread : bool)
| listItem (spread : bool) (checked : option bool)
| html (value : str)
| definition (identifier : str) (url : str) (title : option str)
| text (value : str)
| emphasis
| strong
| inlineCode (value : str)
| break
| link (url : str) (title : option str)
| image (url : str) (title : option str) (alt : option str)
| linkReference (identifier : str) (referenceType : ReferenceType)
| imageReference (identifier : str) (referenceType : ReferenceType)
  (alt : option str).

End Mdast.

(** A [code] node: the optional language tag and info string of the fence,
    and the literal text between the fence lines. *)
Record Code : Type := mkCode {
  lang : option str;
  meta : option str;
  value : str
}.

(** [node.value = v] *)
Definition set_value (node : Code) (v : str) : Code :=
  {| lang := lang node; meta := meta node; value := v |}.

Inductive Node : Type :=
| CodeNode (node : Code)
| Other (kind : Mdast.Kind) (children : list Node).

(** Induction through the child lists. *)
Section NodeInduction.
Variable P : Node -> Prop.
Hypothesis HCode : forall node, P (CodeNode node).
Hypothesis HOther :
  forall kind children, Forall P children -> P (Other kind children).

Fixpoint Node_nested_ind (n : Node) : P n :=
  match n with
  | CodeNode node => HCode node
  | Other kind children =>
      HOther kind children
        ((fix all (l : list Node) : Forall P l :=
            match l with
            | [] => Forall_nil P
            | c :: r => Forall_cons c (Node_nested_ind c) (all r)
            end) children)
  end.
End NodeInduction.

(** The node reached from [n] by a path of child indices. *)
Fixpoint lookup (n : Node) (path : list nat) : option Node :=
  match path with
  | [] => Some n
  | i :: rest =>
      match n with
      | CodeNode _ => None
      | Other _ children =>
          match nth_error children i with
          | Some c => lookup c rest
          | None => None
          end
      end
  end.

(** ** remark-stringify options *)
Inductive ListItemIndent : Type := one | tab | mixed.

Record Options : Type := mkOptions {
  bullet : str;
  listItemIndent : ListItemIndent;
  tightDefinitions : bool;
  rule : str
}.

Definition stringifyOptions : Options := {|
  bullet := JS.lit "-";
  listItemIndent := one;
  tightDefinitions := true;
  rule := JS.lit "-"
|}.

(** ** unified processors *)
Record Processor : Type := mkProcessor {
  parser : str -> Result Node;
  transformers : list (Node -> M Node);
  compiler : Node -> Result str
}.

Fixpoint run (ts : list (Node -> M Node)) (tree : Node) : M Node :=
  match ts with
  | [] => ret tree
  | t :: ts' => tree' <- t tree ;; run ts' tree'
  end.

(** [processor.processSync(text)] and [await processor.process(text)],
    followed by [file.toString()]. *)
Definition process (p : Processor) (text : str) : M str :=
  tree <- lift (parser p text) ;;
  tree' <- run (transformers p) tree ;;
  lift (compiler p tree').

(** [unist-util-visit]: [visit(tree, 'code', visitor)] walks the tree in
    document order and calls the visitor on each [code] node; the visitor
    here returns nothing, so the walk goes on into every parent.  The
    visitor assigns to fields of the node it is given. *)
Section Visit.
Variable visitor : Code -> M Code.

Fixpoint visit (n : Node) : M Node :=
  match n with
  | CodeNode node => node' <- visitor node ;; ret (CodeNode node')
  | Other kind children =>
      children' <-
        (fix each (l : list Node) : M (list Node) :=
           match l with
           | [] => ret []
           | c :: r => c' <- visit c ;; r' <- each r ;; ret (c' :: r')
           end) children ;;
      ret (Other kind children')
  end.

Fixpoint visit_each (l : list Node) : M (list Node) :=
  match l with
  | [] => ret []
  | c :: r => c' <- visit c ;; r' <- visit_each r ;; ret (c' :: r')
  end.
End Visit.

(** ** src/normalizeMarkdown.ts *)
Section NormalizeMarkdown.
Variable remarkParse : str -> Result Node.
Variable remarkStringify : Options -> Node -> Result str.

Definition baseProcessor : Processor := {|
  parser := remarkParse;
  transformers := [];
  compiler := remarkStringify stringifyOptions
|}.

(** [node.lang === tag] *)
Definition langIs (node : Code) (tag : string) : bool :=
  match lang node with
  | Some l => JS.eqb l (JS.lit tag)
  | None => false
  end.

(** [(node.lang === 'markdown' || node.lang === 'md') && node.value] *)
Definition isFormatTarget (node : Code) : bool :=
  (langIs node "markdown" || langIs node "md") && JS.truthy (value node).

(** [e instanceof Error ? e.message : 'Unknown error'] *)
Definition messageOf (e : Thrown) : str :=
  match e with
  | ErrorInstance message => message
  | NonError _ => JS.lit "Unknown error"
  end.

Definition diagnostic (e : Thrown) : str :=
  JS.lit "Failed to process nested markdown: " ++ messageOf e.

Definition visitor (node : Code) : M Code :=
  if negb (isFormatTarget node) then ret node
  else
    try_catch
      (file <- process baseProcessor (value node) ;;
       ret (set_value node (JS.trim file)))
      (fun e => console_error (diagnostic e) ;;; ret node).

Definition remarkRecursiveFormat : Node -> M Node := visit visitor.

Definition processor : Processor := {|
  parser := remarkParse;
  transformers := [remarkRecursiveFormat];
  compiler := remarkStringify stringifyOptions
|}.

Definition normalizeMarkdown (markdownText : str) : M str :=
  if JS.eqb markdownText JS.empty then ret JS.empty
  else process processor markdownText.

End NormalizeMarkdown.

(** ** Other revisions of the visitor

    Two other revisions of [normalizeMarkdown.ts] (src/unnamed/part_000 and
    part_001) differ in the test that selects a block; everything else is
    as above. *)
Module Part000.
Section Revision.
Variable remarkParse : str -> Result Node.
Variable remarkStringify : Options -> Node -> Result str.

(** [node.lang === "markdown" || node.lang === "md"] *)
Definition isMarkdown (node : Code) : bool :=
  langIs node "markdown" || langIs node "md".

Definition visitor (node : Code) : M Code :=
  if negb (isMarkdown node) then ret node
  else
    try_catch
      (file <- process (baseProcessor remarkParse remarkStringify)
                 (value node) ;;
       ret (set_value node (JS.trim file)))
      (fun e => console_error (diagnostic e) ;;; ret node).

Definition remarkRecursiveFormat : Node -> M Node := visit visitor.
End Revision.
End Part000.

Module Part001.
Section Revision.
Variable remarkParse : str -> Result Node.
Variable remarkStringify : Options -> Node -> Result str.
(** String.prototype.toLowerCase of the runtime. *)
Variable toLowerCase : str -> str.

(** [const lang = node.lang?.toLowerCase()], then
    [lang === "markdown" || lang === "md"] *)
Definition isMarkdown (node : Code) : bool :=
  let lowered := option_map toLowerCase (lang node) in
  match lowered with
  | Some l => JS.eqb l (JS.lit "markdown") || JS.eqb l (JS.lit "md")
  | None => false
  end.

Definition visitor (node : Code) : M Code :=
  if isMarkdown node then
    try_catch
      (file <- process (baseProcessor remarkParse remarkStringify)
                 (value node) ;;
       ret (set_value node (JS.trim file)))
      (fun e => console_error (diagnostic e) ;;; ret node)
  else ret node.

Definition remarkRecursiveFormat : Node -> M Node := visit visitor.
End Revision.
End Part001.

(** ** What the spec says, in its own words *)
Module Spec.

(** Spec: its language tag, compared case-insensitively, equals
    'markdown' or 'md'. *)
Definition markdownFamily (tag : option str) : bool :=
  match tag with
  | Some l =>
      JS.eqb (JS.asciiLower l) (JS.lit "markdown")
      || JS.eqb (JS.asciiLower l) (JS.lit "md")
  | None => false
  end.

(** Spec: eligible for recursive formatting iff its language tag,
    compared case-insensitively, equals 'markdown' or 'md', AND its content
    is non-empty. *)
Definition eligible (node : Code) : bool :=
  markdownFamily (lang node) && JS.truthy (value node).

Section BaseFormatter.
Variable Parser : str -> Result Node.
Variable Renderer : Options -> Node -> Result str.

(** Spec: the Base Formatter composes Parser + Renderer with no
    recursion. *)
Definition BaseFormatter (config : Options) (text : str) : Result str :=
  match Parser text with
  | Ok tree => Renderer config tree
  | Throw e => Throw e
  end.
End BaseFormatter.

(** Spec: replace the node's content with the formatter's output, trimmed
    of trailing newline/whitespace. *)
Definition replaced (node : Code) (output : str) : Code :=
  set_value node (JS.trimEnd output).

End Spec.

(** ** The walk, described without the monad

    What one call of the visitor does to its node and what it writes, and
    the same for a whole tree. *)
Section Described.
Variable remarkParse : str -> Result Node.
Variable remarkStringify : Options -> Node -> Result str.

Definition nestedPass (node : Code) : Code * list str :=
  match Spec.BaseFormatter remarkParse remarkStringify stringifyOptions
          (value node) with
  | Ok file => (set_value node (JS.trim file), [])
  | Throw e => (node, [diagnostic e])
  end.

Definition visited (node : Code) : Code * list str :=
  if isFormatTarget node then nestedPass node else (node, []).
End Described.

Section Walk.
Variable f : Code -> Code * list str.

Fixpoint rewritten (n : Node) : Node :=
  match n with
  | CodeNode node => CodeNode (fst (f node))
  | Other kind children => Other kind (List.map rewritten children)
  end.

Fixpoint written (n : Node) : list str :=
  match n with
  | CodeNode node => snd (f node)
  | Other _ children => List.flat_map written children
  end.
End Walk.

(** ** A small stand-in for the two remark packages

    Closed examples need a parser and a stringifier to run.  The stand-in
    reads a text that is one fenced block as a [code] node, a single line
    that begins with a bullet and a space as a list of one item, and any
    other text as one paragraph; it prints them back, the list item with
    the bullet of the options.  remark-parse does not throw in practice;
    the stand-in throws on a text that begins with NUL, and its printer
    throws a non-Error on a tree it does not know, so that the [catch]
    branch can be run. *)
Module Demo.
Fixpoint strip_prefix (p s : str) : option str :=
  match p, s with
  | [], _ => Some s
  | x :: p', y :: s' => if N.eqb x y then strip_prefix p' s' else None
  | _ :: _, [] => None
  end.

(** Splits at the first LF. *)
Fixpoint line (s : str) : option (str * str) :=
  match s with
  | [] => None
  | c :: s' =>
      if N.eqb c 10 then Some ([], s')
      else match line s' with
           | Some (l, r) => Some (c :: l, r)
           | None => None
           end
  end.

Definition fence : str := JS.lit "```".

Definition fenced (text : str) : option (option str * str) :=
  match strip_prefix fence text with
  | None => None
  | Some rest =>
      match line rest with
      | None => None
      | Some (tag, below) =>
          match strip_prefix (rev (fence ++ [10%N])) (rev below) with
          | None => None
          | Some body_rev =>
              let tag' := match tag with [] => None | _ => Some tag end in
              match body_rev with
              | [] => Some (tag', [])
              | c :: b => if N.eqb c 10 then Some (tag', rev b) else None
              end
          end
      end
  end.

Definition chomp (s : str) : str :=
  match rev s with
  | c :: r => if N.eqb c 10 then rev r else s
  | [] => s
  end.

(** A text that is a single line "- item", "* item" or "+ item". *)
Definition bulleted (doc : str) : option str :=
  match chomp doc with
  | m :: 32%N :: item =>
      if (N.eqb m 45 || N.eqb m 42 || N.eqb m 43)
         && forallb (fun c => negb (N.eqb c 10)) item
      then Some item else None
  | _ => None
  end.

Definition para (v : str) : Node :=
  Other Mdast.paragraph [Other (Mdast.text v) []].

Definition bullets (v : str) : Node :=
  Other (Mdast.list false None false)
    [Other (Mdast.listItem false None) [para v]].

Definition single (n : Node) : Node := Other Mdast.root [n].

Definition parse (doc : str) : Result Node :=
  match doc with
  | 0%N :: _ => Throw (ErrorInstance (JS.lit "unexpected NUL"))
  | _ =>
      match fenced doc, bulleted doc with
      | Some (tag, body), _ => Ok (single (CodeNode (mkCode tag None body)))
      | None, Some item => Ok (single (bullets item))
      | None, None => Ok (single (para (chomp doc)))
      end
  end.

Definition block (config : Options) (n : Node) : Result str :=
  match n with
  | CodeNode node =>
      let tag := match lang node with Some l => l | None => [] end in
      let body := match value node with [] => [] | v => v ++ [10%N] end in
      Ok (fence ++ tag ++ [10%N] ++ body ++ fence ++ [10%N])
  | Other Mdast.paragraph [Other (Mdast.text v) []] => Ok (v ++ [10%N])
  | Other (Mdast.list false _ _)
      [Other (Mdast.listItem _ _)
         [Other Mdast.paragraph [Other (Mdast.text v) []]]] =>
      Ok (bullet config ++ [32%N] ++ v ++ [10%N])
  | _ => Throw (NonError (JS.lit "unknown node"))
  end.

Fixpoint blocks (config : Options) (l : list Node) : Result str :=
  match l with
  | [] => Ok []
  | [n] => block config n
  | n :: r =>
      match block config n, blocks config r with
      | Ok a, Ok b => Ok (a ++ [10%N] ++ b)
      | Throw e, _ => Throw e
      | _, Throw e => Throw e
      end
  end.

Definition stringify (config : Options) (tree : Node) : Result str :=
  match tree with
  | Other Mdast.root children => blocks config children
  | _ => Throw (NonError (JS.lit "unknown node"))
  end.

Definition normalize (doc : str) : Result str * Console :=
  normalizeMarkdown parse stringify doc [].

(** A text from its lines, each ended by LF. *)
Definition text (lines : list str) : str :=
  List.flat_map (fun l => l ++ [10%N]) lines.

Definition md : option str := Some (JS.lit "md").

(** A block whose content the stand-in parser rejects. *)
Definition brokenNode : Code := mkCode md None [0%N].
Definition brokenDoc : str := text [JS.lit "```md"; [0%N]; JS.lit "```"].
Definition nul : Thrown := ErrorInstance (JS.lit "unexpected NUL").

(** The same content under three tags. *)
Definition padded : str := JS.lit "# H  ".
Definition lowerNode : Code := mkCode (Some (JS.lit "markdown")) None padded.
Definition upperNode : Code := mkCode (Some (JS.lit "Markdown")) None padded.
Definition pythonNode : Code := mkCode (Some (JS.lit "python")) None padded.
Definition emptyNode : Code := mkCode (Some (JS.lit "MD")) None [].

(** A block whose content is itself a markdown fence. *)
Definition innerNode : Code := mkCode md None (JS.lit "x  ").
Definition innerDoc : str := text [JS.lit "```md"; JS.lit "x  "; JS.lit "```"].
Definition outerNode : Code := mkCode md None innerDoc.

(** A block whose content begins with U+3000 IDEOGRAPHIC SPACE. *)
Definition indented : str := [12288%N; 120%N].
Definition indentedNode : Code := mkCode md None indented.
Definition indentedDoc : str := text [JS.lit "```md"; indented; JS.lit "```"].

(** The same with "+ a" after the space, and what two calls make of it. *)
Definition plusDoc : str :=
  text [JS.lit "```md"; 12288%N :: JS.lit "+ a"; JS.lit "```"].
Definition plusOnce : str := text [JS.lit "```md"; JS.lit "+ a"; JS.lit "```"].
Definition plusTwice : str := text [JS.lit "```md"; JS.lit "- a"; JS.lit "```"].

Definition one (node : Code) : Node := single (CodeNode node).

End Demo.

(** ** Two more stand-ins, for failures outside the block

    A stringifier that rejects every tree, as remark-stringify rejects a
    node it has no handler for; and a block under the tag "Markdown" whose
    content the stand-in parser rejects. *)
Module DemoFailures.

Definition refusal : Thrown :=
  ErrorInstance (JS.lit "Cannot handle unknown node").

Definition refuse (_ : Options) (_ : Node) : Result str := Throw refusal.

Definition lowerDoc : str :=
  Demo.text [JS.lit "```markdown"; Demo.padded; JS.lit "```"].

Definition shoutedNode : Code :=
  mkCode (Some (JS.lit "Markdown")) None [0%N].

Definition shoutedDoc : str :=
  Demo.text [JS.lit "```Markdown"; [0%N]; JS.lit "```"].

End DemoFailures.

(** ** A visitor with any selection test, described without the monad

    The three revisions of the visitor differ only in the test. *)
Definition visitedBy (select : Code -> bool)
    (remarkParse : str -> Result Node)
    (remarkStringify : Options -> Node -> Result str)
    (node : Code) : Code * list str :=
  if select node then nestedPass remarkParse remarkStringify node
  else (node, []).


(** ** The tree in document order *)

(** The [code] nodes of a tree, in the order [visit] meets them. *)
Fixpoint codes (n : Node) : list Code :=
  match n with
  | CodeNode node => [node]
  | Other _ children => List.flat_map codes children
  end.

(** The tree with the content of every [code] node blanked: its shape,
    and the language tag and info string of every block. *)
Fixpoint skeleton (n : Node) : Node :=
  match n with
  | CodeNode node => CodeNode (set_value node [])
  | Other kind children => Other kind (List.map skeleton children)
  end.

(** ** The command line: src/main.ts and src/unnamed/part_002

    The shell around [normalizeMarkdown].  A run talks to Deno: it reads
    the arguments, reads and writes text files, reads standard input,
    prints on the two consoles and may end the process.  The answers of
    Deno are given by a record; what the run did is a list of events. *)
Module Cli.

(** What a Deno call can throw: the two error classes the shell tells
    apart (both are Error subclasses), or anything else. *)
Inductive Raised : Type :=
| NotFound (message : str)
| PermissionDenied (message : str)
| Plain (e : Thrown).

Inductive Answer (A : Type) : Type :=
| Gives (a : A)
| Raises (e : Raised).

Arguments Gives {A} a.
Arguments Raises {A} e.

Record Deno : Type := mkDeno {
  (** [Deno.args] *)
  args : list str;
  (** [Deno.readTextFile(path)] *)
  readTextFile : str -> Answer str;
  (** [Deno.writeTextFile(path, text)] *)
  writeTextFile : str -> str -> Answer unit;
  (** [Deno.stdin.isTerminal()] *)
  isTerminal : bool;
  (** [new TextDecoder().decode(await readAll(Deno.stdin))] *)
  stdinText : Answer str;
  (** [e.stack] of an error object, when it has one *)
  stack : Thrown -> option str
}.

Inductive Event : Type :=
| Stdout (line : str)
| Stderr (line : str)
| Read (path : str)
| ReadStdin
| Write (path : str) (text : str).

(** How a run ends: it returns, it throws, or [Deno.exit] ends it. *)
Inductive Outcome (A : Type) : Type :=
| Done (a : A)
| Raise (e : Raised)
| Exit (code : N).

Arguments Done {A} a.
Arguments Raise {A} e.
Arguments Exit {A} code.

Definition IO (A : Type) : Type := list Event -> Outcome A * list Event.

Definition ret {A} (a : A) : IO A := fun t => (Done a, t).

Definition bind {A B} (m : IO A) (k : A -> IO B) : IO B :=
  fun t =>
    match m t with
    | (Done a, t') => k a t'
    | (Raise e, t') => (Raise e, t')
    | (Exit code, t') => (Exit code, t')
    end.

Definition raise {A} (e : Raised) : IO A := fun t => (Raise e, t).

(** [try { body } catch (e) { handler }]; [Deno.exit] is not caught. *)
Definition try_catch {A} (body : IO A) (handler : Raised -> IO A) : IO A :=
  fun t =>
    match body t with
    | (Raise e, t') => handler e t'
    | other => other
    end.

Definition emit (e : Event) : IO unit := fun t => (Done tt, t ++ [e]).

Definition console_log (line : str) : IO unit := emit (Stdout line).
Definition console_error (line : str) : IO unit := emit (Stderr line).

(** [Deno.exit(code)] does not return. *)
Definition exit {A} (code : N) : IO A := fun t => (Exit code, t).

Definition answer {A} (a : Answer A) : IO A :=
  fun t =>
    match a with
    | Gives v => (Done v, t)
    | Raises e => (Raise e, t)
    end.

Declare Scope io_scope.
Delimit Scope io_scope with io.
Notation "x <- m ;; k" := (bind m (fun x => k))
  (at level 61, m at next level, right associativity) : io_scope.
Notation "m ;;; k" := (bind m (fun _ => k))
  (at level 61, right associativity) : io_scope.
Local Open Scope io_scope.

(** [s.startsWith(prefix)] *)
Fixpoint startsWith (s prefix : str) : bool :=
  match prefix, s with
  | [], _ => true
  | p :: prefix', c :: s' => N.eqb p c && startsWith s' prefix'
  | _ :: _, [] => false
  end.

(** [args.includes(flag)] *)
Definition includes (l : list str) (flag : string) : bool :=
  existsb (fun arg => JS.eqb arg (JS.lit flag)) l.

Record Parsed : Type := mkParsed {
  shouldWrite : bool;
  showHelp : bool;
  filePath : option str
}.

(** The same function in both files. *)
Definition parseArgs (l : list str) : Parsed := {|
  shouldWrite := includes l "--write" || includes l "-w";
  showHelp := includes l "--help" || includes l "-h";
  filePath := List.find (fun arg => negb (startsWith arg (JS.lit "-"))) l
|}.

(** The same function in both files. *)
Definition die {A} (message : str) : IO A :=
  console_error message ;;; exit 1.

(** A template literal that opens with a line break, then the lines. *)
Definition template (lines : list string) : str :=
  10%N :: List.flat_map (fun l => JS.lit l ++ [10%N]) lines.

Definition quoted (s : str) : str := [34%N] ++ s ++ [34%N].

Section Shell.
Variable remarkParse : str -> Result Node.
Variable remarkStringify : Options -> Node -> Result str.
Variable deno : Deno.

(** [await normalizeMarkdown(text)]: its console lines go to standard
    error, its throw is the caller's. *)
Definition normalize (text : str) : IO str :=
  fun t =>
    match normalizeMarkdown remarkParse remarkStringify text [] with
    | (Ok out, lines) => (Done out, t ++ List.map Stderr lines)
    | (Throw e, lines) => (Raise (Plain e), t ++ List.map Stderr lines)
    end.

Definition denoReadTextFile (path : str) : IO str :=
  emit (Read path) ;;; answer (readTextFile deno path).

Definition denoWriteTextFile (path text : str) : IO unit :=
  emit (Write path text) ;;; answer (writeTextFile deno path text).

Definition denoReadStdin : IO str :=
  emit ReadStdin ;;; answer (stdinText deno).

End Shell.

End Cli.

(** ** src/main.ts *)
Module MainTs.
Import Cli.
Local Open Scope io_scope.

Definition HELP_MESSAGE : str := template [
  "Usage:";
  "  deno run --allow-read --allow-write cli.ts [options] <file>";
  EmptyString;
  "Description:";
  "  Formats a Markdown file according to a defined set of rules.";
  EmptyString;
  "Options:";
  "  -w, --write    Write the result back to the source file instead of stdout.";
  "  -h, --help     Show this help message."
]%string.

Section Main.
Variable remarkParse : str -> Result Node.
Variable remarkStringify : Options -> Node -> Result str.
Variable deno : Deno.

(** The [catch] of the read: [die] for the two known classes, then
    [throw error]. *)
Definition readFailed (path : str) (error : Raised) : IO str :=
  match error with
  | NotFound _ =>
      die (JS.lit "Error: File not found at " ++ quoted path)
  | PermissionDenied _ =>
      die (JS.lit "Error: Permission denied to read file at "
           ++ quoted path)
  | Plain _ => ret tt
  end ;;;
  raise error.

(** The [catch] of the write. *)
Definition writeFailed (path : str) (error : Raised) : IO unit :=
  match error with
  | PermissionDenied _ =>
      die (JS.lit "Error: Permission denied to write to file at "
           ++ quoted path)
  | _ => ret tt
  end ;;;
  raise error.

Definition main : IO unit :=
  let parsed := parseArgs (args deno) in
  if showHelp parsed || Nat.eqb (List.length (args deno)) 0 then
    console_log HELP_MESSAGE
  else
    match filePath parsed with
    | None =>
        die (JS.lit "Error: No file path provided." ++ [10%N]
             ++ HELP_MESSAGE)
    | Some path =>
        sourceText <-
          try_catch (denoReadTextFile deno path) (readFailed path) ;;
        normalizedText <-
          normalize remarkParse remarkStringify sourceText ;;
        if shouldWrite parsed then
          try_catch
            (denoWriteTextFile deno path normalizedText ;;;
             console_log (JS.lit "Formatted " ++ path))
            (writeFailed path)
        else console_log normalizedText
    end.

End Main.
End MainTs.

(** ** src/unnamed/part_002 *)
Module Part002.
Import Cli.
Local Open Scope io_scope.

Definition HELP_MESSAGE : str := template [
  "Usage:";
  "  deno run --allow-read --allow-write cli.ts [options] [file]";
  "  cat README.md | deno run --allow-read --allow-write cli.ts [options]";
  EmptyString;
  "Description:";
  "  Formats a Markdown file from a file or stdin according to a defined set of rules.";
  EmptyString;
  "Options:";
  "  -w, --write    Write the result back to the source file instead of stdout.";
  "                 (Cannot be used with stdin)";
  "  -h, --help     Show this help message."
]%string.

Section Main.
Variable remarkParse : str -> Result Node.
Variable remarkStringify : Options -> Node -> Result str.
Variable deno : Deno.

Definition getSourceText (filePath : option str) : IO str :=
  match filePath with
  | None => denoReadStdin deno
  | Some path => denoReadTextFile deno path
  end.

(** [shouldWrite && filePath]: the path has to be a non-empty string. *)
Definition handleOutput (text : str) (filePath : option str)
    (shouldWrite : bool) : IO unit :=
  match filePath with
  | Some path =>
      if shouldWrite && JS.truthy path then
        denoWriteTextFile deno path text ;;;
        console_log (JS.lit "Formatted " ++ path)
      else console_log text
  | None => console_log text
  end.

(** [filePath ?? fallback] *)
Definition orElse (filePath : option str) (fallback : str) : str :=
  match filePath with
  | Some path => path
  | None => fallback
  end.

(** The [catch] of [main]. *)
Definition failed (filePath : option str) (e : Raised) : IO unit :=
  match e with
  | NotFound _ =>
      die (JS.lit "Error: File not found at "
           ++ quoted (orElse filePath JS.empty))
  | PermissionDenied _ =>
      die (JS.lit "Error: Permission denied for "
           ++ quoted (orElse filePath (JS.lit "stdin/stdout")))
  | Plain (ErrorInstance message) =>
      die (JS.lit "An unexpected error occurred:" ++ [10%N]
           ++ match stack deno (ErrorInstance message) with
              | Some trace => trace
              | None => message
              end)
  | Plain (NonError shown) =>
      die (JS.lit "An unknown error occurred: " ++ shown)
  end.

Definition main : IO unit :=
  let parsed := parseArgs (args deno) in
  if showHelp parsed
     || Nat.eqb (List.length (args deno)) 0 && isTerminal deno then
    console_log HELP_MESSAGE
  else
    (if shouldWrite parsed
        && match filePath parsed with None => true | Some _ => false end
     then
       die (JS.lit "Error: --write option cannot be used with stdin."
            ++ [10%N] ++ HELP_MESSAGE)
     else ret tt) ;;;
    try_catch
      (sourceText <- getSourceText (filePath parsed) ;;
       normalizedText <-
         normalize remarkParse remarkStringify sourceText ;;
       handleOutput normalizedText (filePath parsed) (shouldWrite parsed))
      (failed (filePath parsed)).

End Main.
End Part002.

(** ** A small stand-in for Deno

    One file that holds a list item, one file whose text the stand-in
    parser rejects, no other file; standard input is a pipe that holds a
    list item. *)
Module DemoShell.

Definition notes : str := JS.lit "notes.md".
Definition broken : str := JS.lit "broken.md".
Definition missing : str := JS.lit "missing.md".

Definition files (path : str) : Cli.Answer str :=
  if JS.eqb path notes then Cli.Gives (Demo.text [JS.lit "* item one"])
  else if JS.eqb path broken then Cli.Gives [0%N]
  else Cli.Raises (Cli.NotFound (JS.lit "No such file or directory")).

Definition deno (l : list str) : Cli.Deno := {|
  Cli.args := l;
  Cli.readTextFile := files;
  Cli.writeTextFile := fun _ _ => Cli.Gives tt;
  Cli.isTerminal := false;
  Cli.stdinText := Cli.Gives (Demo.text [JS.lit "+ item two"]);
  Cli.stack := fun _ => None
|}.

Definition mainTs (l : list str) : Cli.Outcome unit * list Cli.Event :=
  MainTs.main Demo.parse Demo.stringify (deno l) [].

Definition part002 (l : list str) : Cli.Outcome unit * list Cli.Event :=
  Part002.main Demo.parse Demo.stringify (deno l) [].

Definition formatted : str := Demo.text [JS.lit "- item one"].

(** Three command lines and what the runs do. *)
Definition writeBack : list str := [JS.lit "--write"; notes].
Definition writeBackEvents : list Cli.Event :=
  [Cli.Read notes; Cli.Write notes formatted;
   Cli.Stdout (JS.lit "Formatted " ++ notes)].

Definition noSuchFile : list str := [missing].
Definition noSuchFileEvents : list Cli.Event :=
  [Cli.Read missing;
   Cli.Stderr (JS.lit "Error: File not found at " ++ Cli.quoted missing)].


End DemoShell.

(** A Deno whose command line is a write flag and the empty string, and
    which can read that path but not write it. *)
Module DemoEmptyPath.

Definition deno : Cli.Deno := {|
  Cli.args := [JS.lit "-w"; JS.empty];
  Cli.readTextFile := fun _ => Cli.Gives (Demo.text [JS.lit "* item one"]);
  Cli.writeTextFile :=
    fun _ _ => Cli.Raises (Cli.NotFound (JS.lit "No such file or directory"));
  Cli.isTerminal := false;
  Cli.stdinText := Cli.Gives JS.empty;
  Cli.stack := fun _ => None
|}.

End DemoEmptyPath.

(** ** The first revision of normalizeMarkdown.ts

    The second half of [src/normalizeMarkdown.ts]: one processor without a
    transformer, and a guard against a missing argument instead of the
    guard against the empty string. *)
Module Original.

(** What a caller can pass where a string is expected. *)
Inductive Argument : Type :=
| undefined
| null
| string (s : str).

Section Revision.
Variable remarkParse : str -> Result Node.
Variable remarkStringify : Options -> Node -> Result str.

Definition processor : Processor := {|
  parser := remarkParse;
  transformers := [];
  compiler :=
    remarkStringify
      {| bullet := JS.lit "-";
         listItemIndent := one;
         tightDefinitions := true;
         rule := JS.lit "-" |}
|}.

Definition normalizeMarkdown (markdownText : Argument) : M str :=
  match markdownText with
  | undefined | null => ret JS.empty
  | string text => process processor text
  end.

End Revision.
End Original.


(** * Facts *)

(** ** Strings *)
Module JSFacts.

Lemma eqb_eq (a b : str) : JS.eqb a b = true <-> a = b.
Proof.
  revert b; induction a as [|x a IH]; intros [|y b]; simpl;
    try (split; [discriminate | discriminate]); [tauto|].
  rewrite andb_true_iff, N.eqb_eq, IH.
  split; [intros [-> ->]; reflexivity | intros H; inversion H; auto].
Qed.

Lemma eqb_refl (a : str) : JS.eqb a a = true.
Proof. apply eqb_eq; reflexivity. Qed.

Lemma truthy_iff (s : str) : JS.truthy s = true <-> s <> [].
Proof. destruct s; simpl; split; congruence. Qed.

Lemma trimStart_split (s : str) :
  exists pre, s = pre ++ JS.trimStart s /\ JS.blank pre.
Proof.
  induction s as [|c s [pre [E B]]]; simpl.
  - exists []; split; [reflexivity | constructor].
  - destruct (JS.isWhiteSpace c) eqn:W.
    + exists (c :: pre); split; [simpl; congruence | constructor; assumption].
    + exists []; split; [reflexivity | constructor].
Qed.

Lemma trimStart_head (s : str) c r :
  JS.trimStart s = c :: r -> JS.isWhiteSpace c = false.
Proof.
  induction s as [|x s IH]; simpl; [discriminate|].
  destruct (JS.isWhiteSpace x) eqn:W; [assumption|].
  intros H; inversion H; subst; assumption.
Qed.

Lemma blank_rev (s : str) : JS.blank s -> JS.blank (rev s).
Proof. unfold JS.blank; intros H; apply Forall_rev; assumption. Qed.

Lemma trimEnd_split (s : str) :
  exists post, s = JS.trimEnd s ++ post /\ JS.blank post.
Proof.
  unfold JS.trimEnd.
  destruct (trimStart_split (rev s)) as [pre [E B]].
  exists (rev pre); split; [|apply blank_rev; assumption].
  rewrite <- rev_app_distr, <- E, rev_involutive; reflexivity.
Qed.

Lemma trimEnd_last (s : str) init c :
  JS.trimEnd s = init ++ [c] -> JS.isWhiteSpace c = false.
Proof.
  unfold JS.trimEnd; intros H.
  apply (f_equal (@rev N)) in H.
  rewrite rev_involutive, rev_app_distr in H; simpl in H.
  eapply trimStart_head; eassumption.
Qed.

(** [trim] removes a run of white space at each end and nothing else. *)
Lemma trim_split (s : str) :
  exists pre post,
    s = pre ++ JS.trim s ++ post /\ JS.blank pre /\ JS.blank post.
Proof.
  unfold JS.trim.
  destruct (trimStart_split s) as [pre [E1 B1]].
  destruct (trimEnd_split (JS.trimStart s)) as [post [E2 B2]].
  exists pre, post; repeat split; try assumption.
  rewrite <- E2; assumption.
Qed.

Lemma trim_head (s : str) c r :
  JS.trim s = c :: r -> JS.isWhiteSpace c = false.
Proof.
  unfold JS.trim; intros H.
  destruct (trimEnd_split (JS.trimStart s)) as [post [E _]].
  rewrite H in E; simpl in E.
  eapply trimStart_head; eassumption.
Qed.

Lemma trim_last (s : str) init c :
  JS.trim s = init ++ [c] -> JS.isWhiteSpace c = false.
Proof. unfold JS.trim; apply trimEnd_last. Qed.

Lemma trimStart_blank_app (ws s : str) :
  JS.blank ws -> JS.trimStart (ws ++ s) = JS.trimStart s.
Proof.
  induction 1 as [|c ws W _ IH]; simpl; [reflexivity|].
  rewrite W; assumption.
Qed.

Lemma trim_blank_app (ws s : str) :
  JS.blank ws -> JS.trim (ws ++ s) = JS.trim s.
Proof. intros B; unfold JS.trim; rewrite trimStart_blank_app; auto. Qed.

End JSFacts.

(** ** The monad *)
Lemma bind_ok {A B} (m : M A) (k : A -> M B) w a w' :
  m w = (Ok a, w') -> bind m k w = k a w'.
Proof. unfold bind; intros ->; reflexivity. Qed.

Arguments bind_ok {A B} {m} k {w a w'} _.

Lemma bind_throw {A B} (m : M A) (k : A -> M B) w e w' :
  m w = (Throw e, w') -> bind m k w = (Throw e, w').
Proof. unfold bind; intros ->; reflexivity. Qed.

Arguments bind_throw {A B} {m} k {w e w'} _.

(** ** The walk *)
Section WalkFacts.
Variable visitor : Code -> M Code.
Variable f : Code -> Code * list str.
Hypothesis visitor_run :
  forall node w, visitor node w = (Ok (fst (f node)), w ++ snd (f node)).

Lemma visit_unfold kind children :
  visit visitor (Other kind children) =
  (children' <- visit_each visitor children ;; ret (Other kind children')).
Proof. reflexivity. Qed.

Lemma visit_each_run children :
  Forall (fun n => forall w,
            visit visitor n w = (Ok (rewritten f n), w ++ written f n))
         children ->
  forall w,
    visit_each visitor children w =
    (Ok (List.map (rewritten f) children),
     w ++ List.flat_map (written f) children).
Proof.
  induction 1 as [|c r Hc _ IH]; intros w; simpl.
  - unfold ret; rewrite app_nil_r; reflexivity.
  - rewrite (bind_ok _ (Hc w)).
    rewrite (bind_ok _ (IH _)).
    unfold ret; rewrite app_assoc; reflexivity.
Qed.

(** The walk never throws; it rewrites every [code] node as the visitor
    does and writes the visitors' lines in document order. *)
Lemma visit_run n :
  forall w, visit visitor n w = (Ok (rewritten f n), w ++ written f n).
Proof.
  induction n as [node | kind children IH] using Node_nested_ind; intros w.
  - simpl. rewrite (bind_ok _ (visitor_run node w)). reflexivity.
  - rewrite visit_unfold.
    rewrite (bind_ok _ (visit_each_run children IH w)). reflexivity.
Qed.
End WalkFacts.

Section RewrittenFacts.
Variable f : Code -> Code * list str.

Lemma lookup_rewritten_code n :
  forall path node,
    lookup n path = Some (CodeNode node) ->
    lookup (rewritten f n) path = Some (CodeNode (fst (f node))).
Proof.
  induction n as [c | kind children IH] using Node_nested_ind;
    intros [|i rest] node; simpl; try discriminate.
  - intros H; inversion H; reflexivity.
  - rewrite nth_error_map.
    destruct (nth_error children i) as [c|] eqn:E; [|discriminate].
    simpl. rewrite Forall_forall in IH.
    apply IH. eapply nth_error_In; eassumption.
Qed.

Lemma written_lookup n :
  forall path node line,
    lookup n path = Some (CodeNode node) ->
    In line (snd (f node)) -> In line (written f n).
Proof.
  induction n as [c | kind children IH] using Node_nested_ind;
    intros [|i rest] node line; simpl; try discriminate.
  - intros H; inversion H; auto.
  - destruct (nth_error children i) as [c|] eqn:E; [|discriminate].
    intros L I. apply in_flat_map. exists c.
    pose proof (nth_error_In _ _ E) as Hin.
    split; [assumption|].
    rewrite Forall_forall in IH. eapply IH; eassumption.
Qed.
End RewrittenFacts.

(** ** The module *)
Section NormalizeFacts.
Variable remarkParse : str -> Result Node.
Variable remarkStringify : Options -> Node -> Result str.

Let base := baseProcessor remarkParse remarkStringify.
Let full := processor remarkParse remarkStringify.
Let BaseFormatter :=
  Spec.BaseFormatter remarkParse remarkStringify stringifyOptions.
Let described := visited remarkParse remarkStringify.

(** [baseProcessor] parses and prints, and touches nothing else. *)
Lemma process_base text w : process base text w = (BaseFormatter text, w).
Proof.
  unfold process, base, BaseFormatter, Spec.BaseFormatter, bind, lift, ret.
  simpl. destruct (remarkParse text); reflexivity.
Qed.

Lemma process_base_fst text w :
  fst (process base text w) = BaseFormatter text.
Proof. rewrite process_base; reflexivity. Qed.

Lemma isFormatTarget_iff node :
  isFormatTarget node = true <->
  (lang node = Some (JS.lit "markdown") \/ lang node = Some (JS.lit "md"))
  /\ value node <> [].
Proof.
  unfold isFormatTarget, langIs.
  rewrite andb_true_iff, orb_true_iff, JSFacts.truthy_iff.
  destruct (lang node) as [l|].
  - rewrite !JSFacts.eqb_eq.
    split; intros [[H|H] V]; split; auto; try (left; congruence);
      try (right; congruence).
  - split; intros [[H|H] V]; discriminate.
Qed.

Lemma visitor_skip node w :
  isFormatTarget node = false ->
  visitor remarkParse remarkStringify node w = (Ok node, w).
Proof. unfold visitor; intros ->; reflexivity. Qed.

Lemma visitor_target node w :
  isFormatTarget node = true ->
  visitor remarkParse remarkStringify node w =
  match BaseFormatter (value node) with
  | Ok file => (Ok (set_value node (JS.trim file)), w)
  | Throw e => (Ok node, w ++ [diagnostic e])
  end.
Proof.
  unfold visitor; intros ->; simpl.
  unfold try_catch, bind. fold base. rewrite process_base.
  destruct (BaseFormatter (value node)); reflexivity.
Qed.

Lemma visitor_run node w :
  visitor remarkParse remarkStringify node w =
  (Ok (fst (described node)), w ++ snd (described node)).
Proof.
  unfold described, visited, nestedPass.
  destruct (isFormatTarget node) eqn:T.
  - rewrite (visitor_target _ _ T). unfold BaseFormatter.
    destruct (Spec.BaseFormatter _ _ _ _); simpl;
      rewrite ?app_nil_r; reflexivity.
  - rewrite (visitor_skip _ _ T); simpl; rewrite app_nil_r; reflexivity.
Qed.

(** The transformer never throws. *)
Lemma remarkRecursiveFormat_run tree w :
  remarkRecursiveFormat remarkParse remarkStringify tree w =
  (Ok (rewritten described tree), w ++ written described tree).
Proof. apply visit_run, visitor_run. Qed.

Lemma process_full text tree w :
  remarkParse text = Ok tree ->
  process full text w =
  (remarkStringify stringifyOptions (rewritten described tree),
   w ++ written described tree).
Proof.
  intros P. unfold process, full, bind, lift, ret; simpl.
  rewrite P; simpl. unfold bind.
  rewrite remarkRecursiveFormat_run. reflexivity.
Qed.

Lemma normalizeMarkdown_run text tree w :
  JS.eqb text JS.empty = false ->
  remarkParse text = Ok tree ->
  normalizeMarkdown remarkParse remarkStringify text w =
  (remarkStringify stringifyOptions (rewritten described tree),
   w ++ written described tree).
Proof.
  intros NE P. unfold normalizeMarkdown. rewrite NE.
  apply process_full; assumption.
Qed.

(** A call only appends to the console, and neither its result nor the
    lines it writes depend on what the console held before. *)
Lemma normalizeMarkdown_frame text w :
  normalizeMarkdown remarkParse remarkStringify text w =
  (fst (normalizeMarkdown remarkParse remarkStringify text []),
   w ++ snd (normalizeMarkdown remarkParse remarkStringify text [])).
Proof.
  unfold normalizeMarkdown.
  destruct (JS.eqb text JS.empty).
  - unfold ret; simpl; rewrite app_nil_r; reflexivity.
  - destruct (remarkParse text) as [tree|e] eqn:P.
    + change (processor remarkParse remarkStringify) with full.
      rewrite (process_full text tree w P), (process_full text tree [] P).
      reflexivity.
    + unfold process, bind, lift; simpl. rewrite P; simpl.
      rewrite app_nil_r; reflexivity.
Qed.

(** Two calls in a row return what each returns alone, in either order. *)
Lemma normalizeMarkdown_sequential a b w :
  let '(ra, wa) := normalizeMarkdown remarkParse remarkStringify a w in
  let '(rb, _) := normalizeMarkdown remarkParse remarkStringify b wa in
  ra = fst (normalizeMarkdown remarkParse remarkStringify a [])
  /\ rb = fst (normalizeMarkdown remarkParse remarkStringify b []).
Proof.
  rewrite (normalizeMarkdown_frame a w).
  rewrite (normalizeMarkdown_frame b (w ++ _)).
  split; reflexivity.
Qed.

(** A tag outside the markdown family, however its case is folded, is not
    one of the two tags the visitor looks for. *)
Lemma outside_family_not_target node :
  Spec.markdownFamily (lang node) = false -> isFormatTarget node = false.
Proof.
  unfold Spec.markdownFamily, isFormatTarget, langIs.
  destruct (lang node) as [l|]; [|reflexivity].
  intros F. apply orb_false_iff in F as [F1 F2].
  destruct (JS.eqb l (JS.lit "markdown")) eqn:E1.
  - apply JSFacts.eqb_eq in E1; subst l. discriminate F1.
  - destruct (JS.eqb l (JS.lit "md")) eqn:E2; [|reflexivity].
    apply JSFacts.eqb_eq in E2; subst l. discriminate F2.
Qed.

(** The style configuration, shared by both processors. *)
Lemma style_configuration :
  bullet stringifyOptions = JS.lit "-"
  /\ rule stringifyOptions = JS.lit "-"
  /\ listItemIndent stringifyOptions = one
  /\ tightDefinitions stringifyOptions = true
  /\ compiler base = remarkStringify stringifyOptions
  /\ compiler full = remarkStringify stringifyOptions.
Proof. repeat split. Qed.

End NormalizeFacts.

(** * The claims *)
Section Claims.
Variable remarkParse : str -> Result Node.
Variable remarkStringify : Options -> Node -> Result str.

Let base := baseProcessor remarkParse remarkStringify.
Let normalize := normalizeMarkdown remarkParse remarkStringify.
Let transform := remarkRecursiveFormat remarkParse remarkStringify.
Let render := remarkStringify stringifyOptions.
Let described := visited remarkParse remarkStringify.

(** C1, as the code has it.  Let the text parse to a tree that holds, at
    some path, a [code] node the visitor selects (tag exactly "markdown"
    or "md", content not empty), let [baseProcessor.processSync] throw [e]
    on that node's content, and let the outer stringifier render the tree
    that the transformer hands it.  Then the transformer returns normally,
    the call returns the rendering of its tree, in that tree the node at
    the path is the original one, and the console holds the line "Failed
    to process nested markdown: " followed by the message of [e] when [e]
    is an Error instance and by "Unknown error" otherwise. *)
Theorem nested_failure_is_isolated text tree path node e w w0 :
  JS.eqb text JS.empty = false ->
  remarkParse text = Ok tree ->
  lookup tree path = Some (CodeNode node) ->
  isFormatTarget node = true ->
  fst (process base (value node) w0) = Throw e ->
  (forall tree' w',
     transform tree w = (Ok tree', w') -> exists out, render tree' = Ok out) ->
  exists tree' w' out,
    transform tree w = (Ok tree', w')
    /\ render tree' = Ok out
    /\ normalize text w = (Ok out, w')
    /\ lookup tree' path = Some (CodeNode node)
    /\ (exists lines, w' = w ++ lines)
    /\ In (JS.lit "Failed to process nested markdown: "
           ++ match e with
              | ErrorInstance message => message
              | NonError _ => JS.lit "Unknown error"
              end) w'.
Proof.
  intros NE P L T F R.
  unfold base in F. rewrite process_base_fst in F.
  assert (D : described node = (node, [diagnostic e])).
  { unfold described, visited, nestedPass. rewrite T, F. reflexivity. }
  pose proof (remarkRecursiveFormat_run remarkParse remarkStringify tree w)
    as Run.
  destruct (R _ _ Run) as [out Out].
  exists (rewritten described tree), (w ++ written described tree), out.
  split; [exact Run|]. split; [exact Out|].
  split.
  { unfold normalize.
    rewrite (normalizeMarkdown_run _ _ text tree w NE P).
    change (render (rewritten described tree) = Ok out) in Out.
    unfold render, described in Out. rewrite Out. reflexivity. }
  split.
  { rewrite (lookup_rewritten_code described tree path node L), D.
    reflexivity. }
  split; [eexists; reflexivity|].
  apply in_or_app; right.
  apply (written_lookup described tree path node _ L).
  rewrite D. left. destruct e; reflexivity.
Qed.

(** C2, as the code has it.  For every [code] node of the tree: if its
    language tag is exactly "markdown" or "md" (compared with [===], so
    case matters) and its content is not empty, the walk leaves in its
    place what the nested pass makes of it (the content replaced by the
    trimmed output of [baseProcessor], or, when that throws, the node as
    it was and a diagnostic on the console); otherwise the visitor
    returns at once and the node stays as it was. *)
Theorem format_target_is_exact_tag_and_content tree path node w :
  lookup tree path = Some (CodeNode node) ->
  exists tree' w',
    transform tree w = (Ok tree', w')
    /\ ((lang node = Some (JS.lit "markdown")
         \/ lang node = Some (JS.lit "md"))
        /\ value node <> [] ->
        match fst (process base (value node) []) with
        | Ok file =>
            lookup tree' path =
            Some (CodeNode (set_value node (JS.trim file)))
        | Throw e =>
            lookup tree' path = Some (CodeNode node)
            /\ In (diagnostic e) w'
        end)
    /\ (~ ((lang node = Some (JS.lit "markdown")
            \/ lang node = Some (JS.lit "md"))
           /\ value node <> []) ->
        lookup tree' path = Some (CodeNode node)
        /\ forall w0,
             visitor remarkParse remarkStringify node w0 = (Ok node, w0)).
Proof.
  intros L.
  exists (rewritten described tree), (w ++ written described tree).
  split; [apply remarkRecursiveFormat_run|].
  rewrite (lookup_rewritten_code described tree path node L).
  split.
  - intros E. apply isFormatTarget_iff in E.
    unfold base. rewrite process_base_fst.
    pose proof (written_lookup described tree path node) as W.
    specialize (fun l => W l L).
    unfold described, visited, nestedPass in *. rewrite E in *.
    destruct (Spec.BaseFormatter _ _ _ _) as [file|e]; simpl in *.
    + reflexivity.
    + split; [reflexivity|].
      apply in_or_app; right. apply W. left; reflexivity.
  - intros NE.
    assert (T : isFormatTarget node = false).
    { destruct (isFormatTarget node) eqn:T; [|reflexivity].
      apply isFormatTarget_iff in T. contradiction. }
    split.
    + unfold described, visited. rewrite T. reflexivity.
    + intros w0. apply visitor_skip; assumption.
Qed.

(** C3.  On the empty string the call returns the empty string and
    writes nothing, whatever the parser and the stringifier are, also
    when they throw on every input: neither is consulted. *)
Theorem empty_input_short_circuit w :
  normalize JS.empty w = (Ok JS.empty, w).
Proof. reflexivity. Qed.

(** C4.  [baseProcessor] has no transformer and prints with the same
    options as [processor]; run on the content of a selected node it is
    the Base Formatter of the spec, parse then render.  When the content
    parses to [inner], the renderer is handed [inner] itself, with every
    [code] node inside it as parsed, and the visitor stores the trimmed
    rendering: a fence inside the content is printed, never visited. *)
Theorem inner_pass_is_base_formatter node inner w :
  isFormatTarget node = true ->
  remarkParse (value node) = Ok inner ->
  transformers base = []
  /\ compiler base = compiler (processor remarkParse remarkStringify)
  /\ process base (value node) w =
     (Spec.BaseFormatter remarkParse remarkStringify stringifyOptions
        (value node), w)
  /\ process base (value node) w = (render inner, w)
  /\ visitor remarkParse remarkStringify node w =
     match render inner with
     | Ok file => (Ok (set_value node (JS.trim file)), w)
     | Throw e => (Ok node, w ++ [diagnostic e])
     end.
Proof.
  intros T P.
  assert (B : Spec.BaseFormatter remarkParse remarkStringify
                stringifyOptions (value node) = render inner).
  { unfold Spec.BaseFormatter. rewrite P. reflexivity. }
  split; [reflexivity|]. split; [reflexivity|].
  split; [apply process_base|].
  split; [unfold base; rewrite process_base; rewrite B; reflexivity|].
  rewrite (visitor_target remarkParse remarkStringify node w T), B.
  reflexivity.
Qed.

(** C6.  Let the text parse to a tree that holds, at some path, a [code]
    node whose language tag is outside the markdown family, however its
    case is folded (python, js, no tag at all).  Then the visitor returns
    the node at once, and the tree that the call stringifies has the very
    same node, content included, at that path. *)
Theorem other_languages_untouched text tree path node w :
  JS.eqb text JS.empty = false ->
  remarkParse text = Ok tree ->
  lookup tree path = Some (CodeNode node) ->
  Spec.markdownFamily (lang node) = false ->
  exists tree' w',
    transform tree w = (Ok tree', w')
    /\ normalize text w = (render tree', w')
    /\ lookup tree' path = Some (CodeNode node)
    /\ forall w0,
         visitor remarkParse remarkStringify node w0 = (Ok node, w0).
Proof.
  intros NE P L F.
  apply outside_family_not_target in F.
  exists (rewritten described tree), (w ++ written described tree).
  split; [apply remarkRecursiveFormat_run|].
  split; [apply normalizeMarkdown_run; assumption|].
  split.
  - rewrite (lookup_rewritten_code described tree path node L).
    unfold described, visited. rewrite F. reflexivity.
  - intros w0. apply visitor_skip; assumption.
Qed.

(** C10.  When [baseProcessor] returns [file] for the content of a
    selected node, the node the visitor leaves has the same language tag
    and info string and [file.trim()] as its content: [file] without a run
    of white space at its start and a run of white space at its end.
    White space in front of the formatted content never survives, and
    what is stored neither begins nor ends with white space. *)
Theorem nested_output_trimmed_at_both_ends node file w :
  isFormatTarget node = true ->
  fst (process base (value node) w) = Ok file ->
  visitor remarkParse remarkStringify node w =
  (Ok {| lang := lang node; meta := meta node; value := JS.trim file |}, w)
  /\ (exists pre post,
        file = pre ++ JS.trim file ++ post
        /\ Forall (fun c => JS.isWhiteSpace c = true) pre
        /\ Forall (fun c => JS.isWhiteSpace c = true) post)
  /\ (forall pre rest,
        file = pre ++ rest ->
        Forall (fun c => JS.isWhiteSpace c = true) pre ->
        JS.trim file = JS.trim rest)
  /\ (forall c rest, JS.trim file = c :: rest -> JS.isWhiteSpace c = false)
  /\ (forall init c,
        JS.trim file = init ++ [c] -> JS.isWhiteSpace c = false).
Proof.
  intros T F. unfold base in F. rewrite process_base_fst in F.
  split.
  { rewrite (visitor_target remarkParse remarkStringify node w T), F.
    reflexivity. }
  split; [exact (JSFacts.trim_split file)|].
  split.
  { intros pre rest -> B. apply JSFacts.trim_blank_app. exact B. }
  split.
  - intros c rest. apply JSFacts.trim_head.
  - intros init c. apply JSFacts.trim_last.
Qed.

End Claims.

(** ** The other revisions select differently *)
Lemma part000_selects_by_tag_alone node :
  Part000.isMarkdown node = true <->
  lang node = Some (JS.lit "markdown") \/ lang node = Some (JS.lit "md").
Proof.
  unfold Part000.isMarkdown, langIs.
  rewrite orb_true_iff.
  destruct (lang node) as [l|].
  - rewrite !JSFacts.eqb_eq.
    split; intros [H|H]; [left|right|left|right]; congruence.
  - split; intros [H|H]; discriminate.
Qed.

Lemma part001_selects_by_lowered_tag toLowerCase node :
  Part001.isMarkdown toLowerCase node = true <->
  exists l, lang node = Some l
            /\ (toLowerCase l = JS.lit "markdown"
                \/ toLowerCase l = JS.lit "md").
Proof.
  unfold Part001.isMarkdown.
  destruct (lang node) as [l|]; simpl.
  - rewrite orb_true_iff, !JSFacts.eqb_eq.
    split.
    + intros H; exists l; auto.
    + intros [l' [E H]]; inversion E; subst; assumption.
  - split; [discriminate | intros [l [E _]]; discriminate].
Qed.

(** In both other revisions an empty block under a markdown tag goes
    through the nested pass; in [normalizeMarkdown.ts] it does not. *)
Example empty_block_across_revisions :
  let node := mkCode (Some (JS.lit "md")) None [] in
  Part000.isMarkdown node = true
  /\ Part001.isMarkdown JS.asciiLower node = true
  /\ Part001.isMarkdown JS.asciiLower Demo.emptyNode = true
  /\ isFormatTarget node = false.
Proof. repeat split. Qed.

(** ** Closed instances of the claims *)

Lemma nested_failure_is_isolated_witness :
  JS.eqb Demo.brokenDoc JS.empty = false
  /\ Demo.parse Demo.brokenDoc = Ok (Demo.one Demo.brokenNode)
  /\ lookup (Demo.one Demo.brokenNode) [0] = Some (CodeNode Demo.brokenNode)
  /\ isFormatTarget Demo.brokenNode = true
  /\ fst (process (baseProcessor Demo.parse Demo.stringify)
            (value Demo.brokenNode) []) = Throw Demo.nul
  /\ (forall tree' w',
        remarkRecursiveFormat Demo.parse Demo.stringify
          (Demo.one Demo.brokenNode) [] = (Ok tree', w') ->
        exists out, Demo.stringify stringifyOptions tree' = Ok out)
  /\ exists tree' w' out,
      remarkRecursiveFormat Demo.parse Demo.stringify
        (Demo.one Demo.brokenNode) [] = (Ok tree', w')
      /\ Demo.stringify stringifyOptions tree' = Ok out
      /\ normalizeMarkdown Demo.parse Demo.stringify Demo.brokenDoc [] =
         (Ok out, w')
      /\ lookup tree' [0] = Some (CodeNode Demo.brokenNode)
      /\ (exists lines, w' = [] ++ lines)
      /\ In (JS.lit "Failed to process nested markdown: "
             ++ match Demo.nul with
                | ErrorInstance message => message
                | NonError _ => JS.lit "Unknown error"
                end) w'.
Proof.
  assert (R : forall tree' w',
            remarkRecursiveFormat Demo.parse Demo.stringify
              (Demo.one Demo.brokenNode) [] = (Ok tree', w') ->
            exists out, Demo.stringify stringifyOptions tree' = Ok out).
  { intros tree' w' H. vm_compute in H. injection H as <- _.
    eexists. reflexivity. }
  split; [reflexivity|]. split; [reflexivity|]. split; [reflexivity|].
  split; [reflexivity|]. split; [reflexivity|]. split; [exact R|].
  apply (nested_failure_is_isolated Demo.parse Demo.stringify
           Demo.brokenDoc (Demo.one Demo.brokenNode) [0]
           Demo.brokenNode Demo.nul [] []);
    [reflexivity | reflexivity | reflexivity | reflexivity | reflexivity
    | exact R].
Defined.

(** C1 as stated fails twice.  With a stringifier that rejects every
    tree, a text holds a selected block whose nested run throws, and the
    call throws.  With the stand-in packages, a block under the tag
    "Markdown" is eligible in the spec's sense and its nested run would
    throw, yet the call writes no diagnostic. *)
Lemma nested_failure_claim_fails :
  (Demo.parse DemoFailures.lowerDoc = Ok (Demo.one Demo.lowerNode)
   /\ Spec.eligible Demo.lowerNode = true
   /\ fst (process (baseProcessor Demo.parse DemoFailures.refuse)
             (value Demo.lowerNode) []) = Throw DemoFailures.refusal
   /\ fst (normalizeMarkdown Demo.parse DemoFailures.refuse
             DemoFailures.lowerDoc []) = Throw DemoFailures.refusal)
  /\ (Demo.parse DemoFailures.shoutedDoc =
      Ok (Demo.one DemoFailures.shoutedNode)
      /\ Spec.eligible DemoFailures.shoutedNode = true
      /\ fst (process (baseProcessor Demo.parse Demo.stringify)
                (value DemoFailures.shoutedNode) []) = Throw Demo.nul
      /\ normalizeMarkdown Demo.parse Demo.stringify
           DemoFailures.shoutedDoc [] = (Ok DemoFailures.shoutedDoc, [])).
Proof. repeat split. Qed.

(** The whole call on that text: the text comes back, one line is
    written. *)
Example nested_failure_run :
  Demo.normalize Demo.brokenDoc =
  (Ok Demo.brokenDoc,
   [JS.lit "Failed to process nested markdown: unexpected NUL"]).
Proof. reflexivity. Qed.

(** C2 as stated fails: a block tagged "Markdown" with content is eligible
    in the spec's sense, yet the visitor returns it as it was, while the
    same content under "markdown" is rewritten. *)
Lemma tag_comparison_is_case_sensitive :
  Spec.eligible Demo.upperNode = true
  /\ isFormatTarget Demo.upperNode = false
  /\ visitor Demo.parse Demo.stringify Demo.upperNode [] =
     (Ok Demo.upperNode, [])
  /\ visitor Demo.parse Demo.stringify Demo.lowerNode [] =
     (Ok (set_value Demo.lowerNode (JS.lit "# H")), [])
  /\ Demo.normalize
       (Demo.text [JS.lit "```Markdown"; Demo.padded; JS.lit "```"]) =
     (Ok (Demo.text [JS.lit "```Markdown"; Demo.padded; JS.lit "```"]), [])
  /\ Demo.normalize
       (Demo.text [JS.lit "```markdown"; Demo.padded; JS.lit "```"]) =
     (Ok (Demo.text [JS.lit "```markdown"; JS.lit "# H"; JS.lit "```"]), []).
Proof. repeat split. Qed.

Lemma format_target_is_exact_tag_and_content_witness :
  lookup (Demo.one Demo.lowerNode) [0] = Some (CodeNode Demo.lowerNode)
  /\ exists tree' w',
      remarkRecursiveFormat Demo.parse Demo.stringify
        (Demo.one Demo.lowerNode) [] = (Ok tree', w')
      /\ ((lang Demo.lowerNode = Some (JS.lit "markdown")
           \/ lang Demo.lowerNode = Some (JS.lit "md"))
          /\ value Demo.lowerNode <> [] ->
          match fst (process (baseProcessor Demo.parse Demo.stringify)
                       (value Demo.lowerNode) []) with
          | Ok file =>
              lookup tree' [0] =
              Some (CodeNode (set_value Demo.lowerNode (JS.trim file)))
          | Throw e =>
              lookup tree' [0] = Some (CodeNode Demo.lowerNode)
              /\ In (diagnostic e) w'
          end)
      /\ (~ ((lang Demo.lowerNode = Some (JS.lit "markdown")
              \/ lang Demo.lowerNode = Some (JS.lit "md"))
             /\ value Demo.lowerNode <> []) ->
          lookup tree' [0] = Some (CodeNode Demo.lowerNode)
          /\ forall w0,
               visitor Demo.parse Demo.stringify Demo.lowerNode w0 =
               (Ok Demo.lowerNode, w0)).
Proof.
  split; [reflexivity|].
  apply (format_target_is_exact_tag_and_content Demo.parse Demo.stringify
           (Demo.one Demo.lowerNode) [0] Demo.lowerNode []).
  reflexivity.
Defined.

Lemma inner_pass_is_base_formatter_witness :
  isFormatTarget Demo.outerNode = true
  /\ Demo.parse (value Demo.outerNode) = Ok (Demo.one Demo.innerNode)
  /\ transformers (baseProcessor Demo.parse Demo.stringify) = []
  /\ compiler (baseProcessor Demo.parse Demo.stringify) =
     compiler (processor Demo.parse Demo.stringify)
  /\ process (baseProcessor Demo.parse Demo.stringify)
       (value Demo.outerNode) [] =
     (Spec.BaseFormatter Demo.parse Demo.stringify stringifyOptions
        (value Demo.outerNode), [])
  /\ process (baseProcessor Demo.parse Demo.stringify)
       (value Demo.outerNode) [] =
     (Demo.stringify stringifyOptions (Demo.one Demo.innerNode), [])
  /\ visitor Demo.parse Demo.stringify Demo.outerNode [] =
     match Demo.stringify stringifyOptions (Demo.one Demo.innerNode) with
     | Ok file => (Ok (set_value Demo.outerNode (JS.trim file)), [])
     | Throw e => (Ok Demo.outerNode, [] ++ [diagnostic e])
     end.
Proof.
  split; [reflexivity|]. split; [reflexivity|].
  apply (inner_pass_is_base_formatter Demo.parse Demo.stringify
           Demo.outerNode (Demo.one Demo.innerNode) []); reflexivity.
Defined.

(** The cap at work: on a text that is a markdown fence, [baseProcessor]
    prints the inner content as it stands, where [processor] would have
    rewritten it. *)
Example depth_is_capped :
  process (baseProcessor Demo.parse Demo.stringify) Demo.innerDoc [] =
  (Ok Demo.innerDoc, [])
  /\ process (processor Demo.parse Demo.stringify) Demo.innerDoc [] =
     (Ok (Demo.text [JS.lit "```md"; JS.lit "x"; JS.lit "```"]), [])
  /\ visitor Demo.parse Demo.stringify Demo.outerNode [] =
     (Ok (set_value Demo.outerNode
            (JS.lit "```md" ++ [10%N] ++ JS.lit "x  " ++ [10%N]
             ++ JS.lit "```")), []).
Proof. repeat split. Qed.

(** C5 at a block whose content begins with U+3000: the formatter returns
    the content with its leading space and a final LF; the spec keeps the
    leading space, the visitor drops it. *)
Lemma leading_white_space_is_lost :
  fst (process (baseProcessor Demo.parse Demo.stringify)
         (value Demo.indentedNode) []) = Ok (Demo.indented ++ [10%N])
  /\ Spec.replaced Demo.indentedNode (Demo.indented ++ [10%N]) =
     set_value Demo.indentedNode [12288%N; 120%N]
  /\ visitor Demo.parse Demo.stringify Demo.indentedNode [] =
     (Ok (set_value Demo.indentedNode [120%N]), [])
  /\ Demo.normalize Demo.indentedDoc =
     (Ok (Demo.text [JS.lit "```md"; [120%N]; JS.lit "```"]), []).
Proof. repeat split. Qed.

Lemma other_languages_untouched_witness :
  JS.eqb (Demo.text [JS.lit "```python"; Demo.padded; JS.lit "```"])
    JS.empty = false
  /\ Demo.parse (Demo.text [JS.lit "```python"; Demo.padded; JS.lit "```"]) =
     Ok (Demo.one Demo.pythonNode)
  /\ lookup (Demo.one Demo.pythonNode) [0] = Some (CodeNode Demo.pythonNode)
  /\ Spec.markdownFamily (lang Demo.pythonNode) = false
  /\ exists tree' w',
      remarkRecursiveFormat Demo.parse Demo.stringify
        (Demo.one Demo.pythonNode) [] = (Ok tree', w')
      /\ normalizeMarkdown Demo.parse Demo.stringify
           (Demo.text [JS.lit "```python"; Demo.padded; JS.lit "```"]) [] =
         (Demo.stringify stringifyOptions tree', w')
      /\ lookup tree' [0] = Some (CodeNode Demo.pythonNode)
      /\ forall w0,
           visitor Demo.parse Demo.stringify Demo.pythonNode w0 =
           (Ok Demo.pythonNode, w0).
Proof.
  split; [reflexivity|]. split; [reflexivity|]. split; [reflexivity|].
  split; [reflexivity|].
  apply (other_languages_untouched Demo.parse Demo.stringify
           (Demo.text [JS.lit "```python"; Demo.padded; JS.lit "```"])
           (Demo.one Demo.pythonNode) [0] Demo.pythonNode []);
    reflexivity.
Defined.

Lemma nested_output_trimmed_at_both_ends_witness :
  isFormatTarget Demo.indentedNode = true
  /\ fst (process (baseProcessor Demo.parse Demo.stringify)
            (value Demo.indentedNode) []) = Ok [12288%N; 120%N; 10%N]
  /\ JS.trim [12288%N; 120%N; 10%N] = [120%N]
  /\ visitor Demo.parse Demo.stringify Demo.indentedNode [] =
     (Ok {| lang := Some (JS.lit "md"); meta := None; value := [120%N] |},
      [])
  /\ (visitor Demo.parse Demo.stringify Demo.indentedNode [] =
      (Ok {| lang := lang Demo.indentedNode;
             meta := meta Demo.indentedNode;
             value := JS.trim [12288%N; 120%N; 10%N] |}, [])
      /\ (exists pre post,
            [12288%N; 120%N; 10%N] =
            pre ++ JS.trim [12288%N; 120%N; 10%N] ++ post
            /\ Forall (fun c => JS.isWhiteSpace c = true) pre
            /\ Forall (fun c => JS.isWhiteSpace c = true) post)
      /\ (forall pre rest,
            [12288%N; 120%N; 10%N] = pre ++ rest ->
            Forall (fun c => JS.isWhiteSpace c = true) pre ->
            JS.trim [12288%N; 120%N; 10%N] = JS.trim rest)
      /\ (forall c rest,
            JS.trim [12288%N; 120%N; 10%N] = c :: rest ->
            JS.isWhiteSpace c = false)
      /\ (forall init c,
            JS.trim [12288%N; 120%N; 10%N] = init ++ [c] ->
            JS.isWhiteSpace c = false)).
Proof.
  split; [reflexivity|]. split; [reflexivity|]. split; [reflexivity|].
  split; [reflexivity|].
  apply (nested_output_trimmed_at_both_ends Demo.parse Demo.stringify
           Demo.indentedNode [12288%N; 120%N; 10%N] []); reflexivity.
Defined.

(** ** [trim] against the trailing-only trimming of the spec *)

(** Whenever the formatter's output begins with white space and is not
    white space throughout, what the visitor stores is not what the spec's
    trailing-only trimming would store. *)
Lemma trim_differs_from_trailing_trim
  (remarkParse : str -> Result Node)
  (remarkStringify : Options -> Node -> Result str) node c rest w :
  isFormatTarget node = true ->
  fst (process (baseProcessor remarkParse remarkStringify) (value node) w) =
  Ok (c :: rest) ->
  JS.isWhiteSpace c = true ->
  JS.trimEnd (c :: rest) <> [] ->
  fst (visitor remarkParse remarkStringify node w) <>
  Ok (Spec.replaced node (c :: rest)).
Proof.
  intros T F W NE.
  rewrite process_base_fst in F.
  rewrite (visitor_target remarkParse remarkStringify node w T), F.
  simpl. unfold Spec.replaced, set_value. intros H.
  injection H as H.
  destruct (JSFacts.trimEnd_split (c :: rest)) as [post [E _]].
  destruct (JS.trimEnd (c :: rest)) as [|c' kept] eqn:K; [congruence|].
  simpl in E. injection E as -> _.
  apply JSFacts.trim_head in H. congruence.
Qed.

(** C7 at a block whose content is U+3000 followed by "+ a".  The stand-in
    does here what remark does: a paragraph keeps its leading U+3000, and
    "+ a" on a line of its own is a list of one item, printed with the
    configured bullet.  The first call stores "+ a", the leading space
    trimmed away; the second call reads that as a list and stores "- a". *)
Lemma trim_breaks_idempotence :
  Demo.normalize Demo.plusDoc = (Ok Demo.plusOnce, [])
  /\ Demo.normalize Demo.plusOnce = (Ok Demo.plusTwice, [])
  /\ Demo.plusOnce <> Demo.plusTwice.
Proof.
  split; [reflexivity|]. split; [reflexivity|].
  intros H. vm_compute in H. discriminate H.
Qed.

(** The stand-in prints a list item with the bullet of the options. *)
Example bullet_of_the_options :
  Demo.normalize (Demo.text [JS.lit "* item one"]) =
  (Ok (Demo.text [JS.lit "- item one"]), []).
Proof. reflexivity. Qed.

(** * More of the code *)

(** ** The walk, over any visitor *)
Section WalkMore.
Variable f : Code -> Code * list str.

Lemma written_codes n :
  written f n = List.flat_map (fun node => snd (f node)) (codes n).
Proof.
  induction n as [node | kind children IH] using Node_nested_ind; simpl.
  - rewrite app_nil_r. reflexivity.
  - induction IH as [|c r Hc _ IHr]; simpl; [reflexivity|].
    rewrite flat_map_app, Hc, IHr. reflexivity.
Qed.

Lemma skeleton_rewritten n :
  (forall node, exists v, fst (f node) = set_value node v) ->
  skeleton (rewritten f n) = skeleton n.
Proof.
  intros H.
  induction n as [node | kind children IH] using Node_nested_ind; simpl.
  - destruct (H node) as [v ->]. reflexivity.
  - f_equal. rewrite map_map.
    induction IH as [|c r Hc _ IHr]; simpl; [reflexivity|].
    rewrite Hc, IHr. reflexivity.
Qed.

Lemma rewritten_ext (g : Code -> Code * list str) n :
  (forall node, In node (codes n) -> f node = g node) ->
  rewritten f n = rewritten g n /\ written f n = written g n.
Proof.
  induction n as [node | kind children IH] using Node_nested_ind;
    simpl; intros H.
  - rewrite (H node) by (left; reflexivity). split; reflexivity.
  - assert (E : List.map (rewritten f) children
                = List.map (rewritten g) children
                /\ List.flat_map (written f) children
                   = List.flat_map (written g) children).
    { induction IH as [|c r Hc _ IHr]; simpl; [split; reflexivity|].
      destruct Hc as [E1 E2].
      { intros node I. apply H. simpl. apply in_or_app. left. exact I. }
      destruct IHr as [E3 E4].
      { intros node I. apply H. simpl. apply in_or_app. right. exact I. }
      rewrite E1, E2, E3, E4. split; reflexivity. }
    destruct E as [-> ->]. split; reflexivity.
Qed.

Lemma rewritten_same n :
  (forall node, In node (codes n) -> f node = (node, [])) ->
  rewritten f n = n /\ written f n = [].
Proof.
  induction n as [node | kind children IH] using Node_nested_ind;
    simpl; intros H.
  - rewrite (H node) by (left; reflexivity). split; reflexivity.
  - assert (E : List.map (rewritten f) children = children
                /\ List.flat_map (written f) children = []).
    { induction IH as [|c r Hc _ IHr]; simpl; [split; reflexivity|].
      destruct Hc as [E1 E2].
      { intros node I. apply H. simpl. apply in_or_app. left. exact I. }
      destruct IHr as [E3 E4].
      { intros node I. apply H. simpl. apply in_or_app. right. exact I. }
      rewrite E1, E2, E3, E4. split; reflexivity. }
    destruct E as [-> ->]. split; reflexivity.
Qed.
End WalkMore.

(** ** The three visitors *)
Section Revisions.
Variable remarkParse : str -> Result Node.
Variable remarkStringify : Options -> Node -> Result str.
Variable toLowerCase : str -> str.

Let base := baseProcessor remarkParse remarkStringify.

Lemma nestedPass_run node w :
  try_catch
    (file <- process base (value node) ;;
     ret (set_value node (JS.trim file)))
    (fun e => console_error (diagnostic e) ;;; ret node) w =
  (Ok (fst (nestedPass remarkParse remarkStringify node)),
   w ++ snd (nestedPass remarkParse remarkStringify node)).
Proof.
  unfold try_catch, bind, nestedPass, base.
  rewrite process_base.
  destruct (Spec.BaseFormatter _ _ _ _); simpl;
    rewrite ?app_nil_r; reflexivity.
Qed.

Lemma part000_visitor_run node w :
  Part000.visitor remarkParse remarkStringify node w =
  (Ok (fst (visitedBy Part000.isMarkdown remarkParse remarkStringify node)),
   w ++ snd (visitedBy Part000.isMarkdown remarkParse remarkStringify node)).
Proof.
  unfold Part000.visitor, visitedBy.
  destruct (Part000.isMarkdown node); simpl.
  - apply nestedPass_run.
  - unfold ret. rewrite app_nil_r. reflexivity.
Qed.

Lemma part001_visitor_run node w :
  Part001.visitor remarkParse remarkStringify toLowerCase node w =
  (Ok (fst (visitedBy (Part001.isMarkdown toLowerCase)
              remarkParse remarkStringify node)),
   w ++ snd (visitedBy (Part001.isMarkdown toLowerCase)
               remarkParse remarkStringify node)).
Proof.
  unfold Part001.visitor, visitedBy.
  destruct (Part001.isMarkdown toLowerCase node); simpl.
  - apply nestedPass_run.
  - unfold ret. rewrite app_nil_r. reflexivity.
Qed.

Lemma visitedBy_keeps_tag select node :
  exists v,
    fst (visitedBy select remarkParse remarkStringify node) =
    set_value node v.
Proof.
  unfold visitedBy, nestedPass.
  destruct (select node); [|exists (value node); destruct node; reflexivity].
  destruct (Spec.BaseFormatter _ _ _ _); simpl.
  - eexists; reflexivity.
  - exists (value node); destruct node; reflexivity.
Qed.
End Revisions.

(** ** The transformer and the call, beyond the claims *)
Section TransformerMore.
Variable remarkParse : str -> Result Node.
Variable remarkStringify : Options -> Node -> Result str.
Variable toLowerCase : str -> str.

Let base := baseProcessor remarkParse remarkStringify.
Let transform := remarkRecursiveFormat remarkParse remarkStringify.
Let normalize := normalizeMarkdown remarkParse remarkStringify.
Let described := visited remarkParse remarkStringify.

(** X1.  The transformer returns normally on every tree, only appends to
    the console, and changes nothing but the content of [code] nodes: the
    shape of the tree, every other node, and the language tag and info
    string of every block are as they were. *)
Theorem transformer_changes_values_only tree w :
  exists tree' lines,
    transform tree w = (Ok tree', w ++ lines)
    /\ skeleton tree' = skeleton tree.
Proof.
  exists (rewritten described tree), (written described tree).
  split; [apply remarkRecursiveFormat_run|].
  apply skeleton_rewritten. intros node.
  apply (visitedBy_keeps_tag remarkParse remarkStringify isFormatTarget).
Qed.

(** X2.  What the transformer writes is one diagnostic for each selected
    block whose nested run throws, in document order, and nothing else. *)
Theorem diagnostics_follow_document_order tree w :
  snd (transform tree w) =
  w ++ List.flat_map
         (fun node =>
            if isFormatTarget node then
              match fst (process base (value node) []) with
              | Ok _ => []
              | Throw e => [diagnostic e]
              end
            else [])
         (codes tree).
Proof.
  unfold transform. rewrite remarkRecursiveFormat_run. simpl.
  rewrite written_codes. f_equal.
  apply flat_map_ext. intros node.
  unfold described, visited, nestedPass, base.
  rewrite process_base_fst.
  destruct (isFormatTarget node); [|reflexivity].
  destruct (Spec.BaseFormatter _ _ _ _); reflexivity.
Qed.

(** X3.  On a text whose tree holds no block that the visitor selects,
    the call is [baseProcessor] on that text: same result, nothing
    written. *)
Theorem without_targets_normalize_is_base_processor text tree w :
  JS.eqb text JS.empty = false ->
  remarkParse text = Ok tree ->
  (forall node, In node (codes tree) -> isFormatTarget node = false) ->
  normalize text w = process base text w.
Proof.
  intros NE P H. unfold normalize, base.
  rewrite (normalizeMarkdown_run _ _ text tree w NE P), process_base.
  destruct (rewritten_same (visited remarkParse remarkStringify) tree)
    as [-> ->].
  { intros node I. unfold visited. rewrite (H node I). reflexivity. }
  rewrite app_nil_r. unfold Spec.BaseFormatter. rewrite P. reflexivity.
Qed.

(** X4.  On a text that is not empty the call throws in two cases only:
    the outer parse throws, and then nothing is written; or the outer
    stringification of the transformed tree throws, and then the
    diagnostics of the walk stay written. *)
Theorem normalize_throws_from_outer_steps_only text w e w' :
  JS.eqb text JS.empty = false ->
  normalize text w = (Throw e, w') <->
  (remarkParse text = Throw e /\ w' = w)
  \/ (exists tree tree',
        remarkParse text = Ok tree
        /\ transform tree w = (Ok tree', w')
        /\ remarkStringify stringifyOptions tree' = Throw e).
Proof.
  intros NE. unfold normalize, transform. split.
  - destruct (remarkParse text) as [tree|e0] eqn:P.
    + rewrite (normalizeMarkdown_run _ _ text tree w NE P).
      intros H. injection H as H1 H2. right.
      exists tree, (rewritten described tree).
      split; [reflexivity|]. split; [|exact H1].
      rewrite remarkRecursiveFormat_run. subst w'. reflexivity.
    + unfold normalizeMarkdown. rewrite NE.
      unfold process, bind, lift; simpl. rewrite P.
      intros H. injection H as -> ->. left. split; reflexivity.
  - intros [[P ->] | [tree [tree' [P [T R]]]]].
    + unfold normalizeMarkdown. rewrite NE.
      unfold process, bind, lift; simpl. rewrite P. reflexivity.
    + rewrite (normalizeMarkdown_run _ _ text tree w NE P).
      rewrite remarkRecursiveFormat_run in T.
      injection T as <- <-. rewrite R. reflexivity.
Qed.

(** X5.  The transformer of the revision in part_000 returns normally on
    every tree, only appends to the console, and changes nothing but the
    content of [code] nodes. *)
Theorem part000_transformer_changes_values_only tree w :
  exists tree' lines,
    Part000.remarkRecursiveFormat remarkParse remarkStringify tree w =
    (Ok tree', w ++ lines)
    /\ skeleton tree' = skeleton tree.
Proof.
  pose (f := visitedBy Part000.isMarkdown remarkParse remarkStringify).
  exists (rewritten f tree), (written f tree).
  split.
  - apply visit_run. intros node w0. apply part000_visitor_run.
  - apply skeleton_rewritten. intros node. apply visitedBy_keeps_tag.
Qed.

(** X6.  The same for the revision in part_001, whatever
    [toLowerCase] does, also on blocks without a language tag. *)
Theorem part001_transformer_changes_values_only tree w :
  exists tree' lines,
    Part001.remarkRecursiveFormat remarkParse remarkStringify toLowerCase
      tree w = (Ok tree', w ++ lines)
    /\ skeleton tree' = skeleton tree.
Proof.
  pose (f := visitedBy (Part001.isMarkdown toLowerCase)
               remarkParse remarkStringify).
  exists (rewritten f tree), (written f tree).
  split.
  - apply visit_run. intros node w0. apply part001_visitor_run.
  - apply skeleton_rewritten. intros node. apply visitedBy_keeps_tag.
Qed.

(** X7.  On a tree in which no block is empty, the transformer of part_000
    and the one of normalizeMarkdown.ts do the same: same tree, same
    lines. *)
Theorem part000_agrees_when_no_block_is_empty tree w :
  (forall node, In node (codes tree) -> value node <> []) ->
  Part000.remarkRecursiveFormat remarkParse remarkStringify tree w =
  transform tree w.
Proof.
  intros H. unfold transform.
  rewrite remarkRecursiveFormat_run.
  unfold Part000.remarkRecursiveFormat.
  rewrite (visit_run _ _ (part000_visitor_run remarkParse remarkStringify)).
  destruct (rewritten_ext
              (visitedBy Part000.isMarkdown remarkParse remarkStringify)
              (visited remarkParse remarkStringify) tree) as [-> ->];
    [|reflexivity].
  intros node I. unfold visitedBy, visited, isFormatTarget.
  fold (Part000.isMarkdown node).
  destruct (value node) eqn:V; [destruct (H node I V)|].
  simpl. rewrite andb_true_r. reflexivity.
Qed.

(** X8.  On a tree in which no block is empty and every language tag is
    its own lower-case form, the transformer of part_001 and the one of
    normalizeMarkdown.ts do the same. *)
Theorem part001_agrees_on_lower_case_tags tree w :
  (forall node, In node (codes tree) ->
     value node <> []
     /\ forall l, lang node = Some l -> toLowerCase l = l) ->
  Part001.remarkRecursiveFormat remarkParse remarkStringify toLowerCase
    tree w = transform tree w.
Proof.
  intros H. unfold transform.
  rewrite remarkRecursiveFormat_run.
  unfold Part001.remarkRecursiveFormat.
  rewrite (visit_run _ _
             (part001_visitor_run remarkParse remarkStringify toLowerCase)).
  destruct (rewritten_ext
              (visitedBy (Part001.isMarkdown toLowerCase)
                 remarkParse remarkStringify)
              (visited remarkParse remarkStringify) tree) as [-> ->];
    [|reflexivity].
  intros node I. destruct (H node I) as [V L].
  unfold visitedBy, visited, isFormatTarget, Part001.isMarkdown, langIs.
  destruct (lang node) as [l|]; simpl.
  - rewrite (L l eq_refl).
    destruct (value node); [destruct (V eq_refl)|].
    simpl. rewrite andb_true_r. reflexivity.
  - reflexivity.
Qed.

End TransformerMore.

(** X19.  The first revision and the present one give the same result and
    write the same on every text that is not empty and whose tree holds
    no block that the visitor selects.  On the empty string the present
    one returns at once, where the first one runs the parser. *)
Theorem original_agrees_without_targets
  (remarkParse : str -> Result Node)
  (remarkStringify : Options -> Node -> Result str) text tree w :
  JS.eqb text JS.empty = false ->
  remarkParse text = Ok tree ->
  (forall node, In node (codes tree) -> isFormatTarget node = false) ->
  normalizeMarkdown remarkParse remarkStringify text w =
  Original.normalizeMarkdown remarkParse remarkStringify
    (Original.string text) w
  /\ normalizeMarkdown remarkParse remarkStringify JS.empty w =
     (Ok JS.empty, w)
  /\ Original.normalizeMarkdown remarkParse remarkStringify
       (Original.string JS.empty) w =
     (match remarkParse JS.empty with
      | Ok empty => remarkStringify stringifyOptions empty
      | Throw e => Throw e
      end, w).
Proof.
  intros NE P H. split; [|split].
  - rewrite (without_targets_normalize_is_base_processor
               remarkParse remarkStringify text tree w NE P H).
    reflexivity.
  - reflexivity.
  - apply (process_base remarkParse remarkStringify JS.empty w).
Qed.

Lemma original_agrees_without_targets_witness :
  JS.eqb (Demo.text [JS.lit "* item one"]) JS.empty = false
  /\ Demo.parse (Demo.text [JS.lit "* item one"]) =
     Ok (Demo.single (Demo.bullets (JS.lit "item one")))
  /\ (forall node,
        In node (codes (Demo.single (Demo.bullets (JS.lit "item one")))) ->
        isFormatTarget node = false)
  /\ (normalizeMarkdown Demo.parse Demo.stringify
        (Demo.text [JS.lit "* item one"]) [] =
      Original.normalizeMarkdown Demo.parse Demo.stringify
        (Original.string (Demo.text [JS.lit "* item one"])) []
      /\ normalizeMarkdown Demo.parse Demo.stringify JS.empty [] =
         (Ok JS.empty, [])
      /\ Original.normalizeMarkdown Demo.parse Demo.stringify
           (Original.string JS.empty) [] =
         (match Demo.parse JS.empty with
          | Ok empty => Demo.stringify stringifyOptions empty
          | Throw e => Throw e
          end, [])).
Proof.
  assert (H : forall node,
            In node (codes (Demo.single (Demo.bullets (JS.lit "item one"))))
            -> isFormatTarget node = false).
  { intros node []. }
  split; [reflexivity|]. split; [reflexivity|]. split; [exact H|].
  apply (original_agrees_without_targets Demo.parse Demo.stringify
           (Demo.text [JS.lit "* item one"])
           (Demo.single (Demo.bullets (JS.lit "item one"))) []);
    [reflexivity | reflexivity | exact H].
Defined.

(** ** The command line *)
Module CliFacts.
Import Cli.

Lemma includes_app a b flag :
  includes (a ++ b) flag = includes a flag || includes b flag.
Proof. unfold includes. apply existsb_app. Qed.

Lemma find_app {A} (p : A -> bool) a b :
  List.find p (a ++ b) =
  match List.find p a with
  | Some x => Some x
  | None => List.find p b
  end.
Proof.
  induction a as [|x a IH]; simpl; [reflexivity|].
  destruct (p x); [reflexivity | exact IH].
Qed.

Lemma not_in_stderr e lines :
  (forall line, e <> Stderr line) -> ~ In e (List.map Stderr lines).
Proof.
  intros H I. apply in_map_iff in I as [line [E _]].
  apply (H line). symmetry. exact E.
Qed.

End CliFacts.

(** X9.  Arguments compose: a flag counts wherever it stands, before or
    after the file, and the file is the first argument that does not begin
    with a dash; later ones are ignored. *)
Theorem parseArgs_app a b :
  Cli.shouldWrite (Cli.parseArgs (a ++ b)) =
  Cli.shouldWrite (Cli.parseArgs a) || Cli.shouldWrite (Cli.parseArgs b)
  /\ Cli.showHelp (Cli.parseArgs (a ++ b)) =
     Cli.showHelp (Cli.parseArgs a) || Cli.showHelp (Cli.parseArgs b)
  /\ Cli.filePath (Cli.parseArgs (a ++ b)) =
     match Cli.filePath (Cli.parseArgs a) with
     | Some path => Some path
     | None => Cli.filePath (Cli.parseArgs b)
     end.
Proof.
  unfold Cli.parseArgs; simpl.
  rewrite !CliFacts.includes_app, CliFacts.find_app.
  repeat split.
  - destruct (Cli.includes a "--write"), (Cli.includes a "-w"),
      (Cli.includes b "--write"), (Cli.includes b "-w"); reflexivity.
  - destruct (Cli.includes a "--help"), (Cli.includes a "-h"),
      (Cli.includes b "--help"), (Cli.includes b "-h"); reflexivity.
Qed.

(** X10.  The file path is the first argument that does not begin with a
    dash: every argument before it begins with one.  There is no file
    path exactly when every argument begins with a dash; the empty string
    counts as a path, a lone dash does not. *)
Theorem filePath_is_first_plain_argument l :
  (forall path,
     Cli.filePath (Cli.parseArgs l) = Some path <->
     exists before after,
       l = before ++ path :: after
       /\ Forall (fun arg => Cli.startsWith arg (JS.lit "-") = true) before
       /\ Cli.startsWith path (JS.lit "-") = false)
  /\ (Cli.filePath (Cli.parseArgs l) = None <->
      Forall (fun arg => Cli.startsWith arg (JS.lit "-") = true) l)
  /\ Cli.filePath (Cli.parseArgs [JS.empty]) = Some JS.empty
  /\ Cli.filePath (Cli.parseArgs [JS.lit "-"]) = None.
Proof.
  unfold Cli.parseArgs; simpl Cli.filePath.
  set (plain := fun arg => negb (Cli.startsWith arg (JS.lit "-"))).
  split; [|split; [|split; reflexivity]].
  - intros path. split.
    + induction l as [|x l IH]; simpl; [discriminate|].
      unfold plain at 1.
      destruct (Cli.startsWith x (JS.lit "-")) eqn:S; simpl.
      * intros F. destruct (IH F) as [before [after [E [B P]]]].
        exists (x :: before), after. subst l.
        split; [reflexivity|]. split; [constructor; assumption | exact P].
      * intros F. injection F as <-.
        exists [], l. split; [reflexivity|]. split; [constructor | exact S].
    + intros [before [after [-> [B P]]]].
      induction B as [|x before S _ IH]; simpl.
      * unfold plain. rewrite P. reflexivity.
      * unfold plain at 1. rewrite S. simpl. exact IH.
  - split.
    + intros F. apply Forall_forall. intros x I.
      pose proof (find_none _ _ F x I) as N. unfold plain in N.
      destruct (Cli.startsWith x (JS.lit "-")); [reflexivity|discriminate].
    + induction 1 as [|x l S _ IH]; simpl; [reflexivity|].
      unfold plain at 1. rewrite S. simpl. exact IH.
Qed.

(** X11.  An option that is not one of the four flags is ignored:
    removing it from the arguments changes nothing. *)
Theorem unknown_options_are_ignored a x b :
  Cli.startsWith x (JS.lit "-") = true ->
  JS.eqb x (JS.lit "--write") = false ->
  JS.eqb x (JS.lit "-w") = false ->
  JS.eqb x (JS.lit "--help") = false ->
  JS.eqb x (JS.lit "-h") = false ->
  Cli.parseArgs (a ++ x :: b) = Cli.parseArgs (a ++ b).
Proof.
  intros S W1 W2 H1 H2.
  unfold Cli.parseArgs.
  rewrite !CliFacts.includes_app, !CliFacts.find_app.
  unfold Cli.includes; simpl.
  rewrite S, W1, W2, H1, H2. reflexivity.
Qed.

Lemma unknown_options_are_ignored_witness :
  Cli.startsWith (JS.lit "--check") (JS.lit "-") = true
  /\ JS.eqb (JS.lit "--check") (JS.lit "--write") = false
  /\ JS.eqb (JS.lit "--check") (JS.lit "-w") = false
  /\ JS.eqb (JS.lit "--check") (JS.lit "--help") = false
  /\ JS.eqb (JS.lit "--check") (JS.lit "-h") = false
  /\ Cli.parseArgs ([JS.lit "-w"] ++ JS.lit "--check" :: [JS.lit "a.md"]) =
     Cli.parseArgs ([JS.lit "-w"] ++ [JS.lit "a.md"]).
Proof.
  split; [reflexivity|]. split; [reflexivity|]. split; [reflexivity|].
  split; [reflexivity|]. split; [reflexivity|].
  apply (unknown_options_are_ignored [JS.lit "-w"] (JS.lit "--check")
           [JS.lit "a.md"]); reflexivity.
Defined.

(** ** Runs of the two shells *)

Ltac io_unfold :=
  unfold MainTs.main, MainTs.readFailed, MainTs.writeFailed,
    Part002.main, Part002.getSourceText, Part002.handleOutput,
    Part002.failed, Part002.orElse,
    Cli.normalize, Cli.denoReadTextFile, Cli.denoWriteTextFile,
    Cli.denoReadStdin, Cli.die, Cli.console_log, Cli.console_error,
    Cli.emit, Cli.exit, Cli.raise, Cli.ret, Cli.answer, Cli.bind,
    Cli.try_catch in *;
  cbv zeta in *.

Ltac no_match x :=
  lazymatch x with
  | context [match _ with _ => _ end] => fail
  | _ => idtac
  end.

Ltac io_step :=
  match goal with
  | H : ?x = ?x |- _ => clear H
  | H : (_, _) = (_, _) |- _ =>
      apply pair_equal_spec in H as [? ?]; subst
  | H : context [match ?x with _ => _ end] |- _ =>
      no_match x;
      let E := fresh "E" in destruct x eqn:E; cbv beta iota in H
  | H : Cli.Done _ = Cli.Done _ |- _ => injection H as ?; subst
  | H : Cli.Gives _ = Cli.Gives _ |- _ => injection H as ?; subst
  | H : Cli.Raises _ = Cli.Raises _ |- _ => injection H as ?; subst
  | H : Cli.Exit _ = Cli.Exit _ |- _ => injection H as ?; subst
  | H : Cli.Raise _ = Cli.Raise _ |- _ => injection H as ?; subst
  | _ => discriminate
  end.

Ltac in_trace :=
  repeat match goal with
  | H : In _ (_ ++ _) |- _ => apply in_app_or in H as [H|H]
  | H : In _ (_ :: _) |- _ => destruct H as [H|H]
  | H : In _ [] |- _ => destruct H
  | H : In _ (List.map Cli.Stderr _) |- _ =>
      apply in_map_iff in H as [? [H _]]
  | H : Cli.Stderr _ = _ |- _ => try discriminate H
  | H : Cli.Stdout _ = _ |- _ =>
      first [discriminate H | injection H as ?; subst]
  | H : Cli.Read _ = _ |- _ =>
      first [discriminate H | injection H as ?; subst]
  | H : Cli.Write _ _ = _ |- _ =>
      first [discriminate H | injection H as ? ?; subst]
  | H : Cli.ReadStdin = _ |- _ => try discriminate H
  end.

Ltac io_goal_step :=
  match goal with
  | |- context [match ?x with _ => _ end] =>
      no_match x;
      let E := fresh "E" in destruct x eqn:E; cbv beta iota
  end.

Ltac last_event :=
  first [ exists []; eexists; reflexivity
        | eexists; eexists; reflexivity ].

Ltac open_run R :=
  unfold MainTs.main, Part002.main in *;
  match goal with
  | deno : Cli.Deno |- _ =>
      let parsed := fresh "parsed" in
      set (parsed := Cli.parseArgs (Cli.args deno)) in *; clearbody parsed
  end;
  io_unfold; cbv beta iota in R.

Section MainTsRuns.
Variable remarkParse : str -> Result Node.
Variable remarkStringify : Options -> Node -> Result str.
Variable deno : Cli.Deno.

Let parsed := Cli.parseArgs (Cli.args deno).
Let normalize := normalizeMarkdown remarkParse remarkStringify.

(** X12.  Whatever Deno answers, a run of main.ts reads no file but the
    one named on the command line, never reads standard input, and writes
    only when a write flag is given: then it writes to the file it read,
    and what it writes is the normalised text of what it read. *)
Theorem main_ts_file_access outcome events :
  MainTs.main remarkParse remarkStringify deno [] = (outcome, events) ->
  (forall path, In (Cli.Read path) events ->
     Cli.filePath parsed = Some path /\ Cli.showHelp parsed = false)
  /\ ~ In Cli.ReadStdin events
  /\ (forall path text, In (Cli.Write path text) events ->
        Cli.shouldWrite parsed = true
        /\ Cli.filePath parsed = Some path
        /\ exists source,
             Cli.readTextFile deno path = Cli.Gives source
             /\ fst (normalize source []) = Ok text).
Proof.
  unfold normalize, parsed. clear normalize parsed.
  intros R. open_run R.
  split; [|split].
  - intros path I. repeat io_step; in_trace;
      try (apply orb_false_iff in E as [E _]); auto.

  - intros I. repeat io_step; in_trace.
  - intros path text I. repeat io_step; in_trace;
      (split; [reflexivity|]; split; [reflexivity|];
       eexists; split; [eassumption|];
       match goal with H : normalizeMarkdown _ _ _ _ = _ |- _ =>
         rewrite H end; reflexivity).
Qed.

(** X13.  When main.ts ends the process it does so with code 1, the last
    thing it did was to write a message on standard error, and it printed
    nothing on standard output. *)
Theorem main_ts_exit_is_one_with_message code events :
  MainTs.main remarkParse remarkStringify deno [] = (Cli.Exit code, events) ->
  code = 1%N
  /\ (exists before line, events = before ++ [Cli.Stderr line])
  /\ forall line, ~ In (Cli.Stdout line) events.
Proof.
  intros R. open_run R.
  repeat io_step;
    (split; [reflexivity|]; split;
     [last_event | intros line I; in_trace]).
Qed.

(** X14.  When main.ts returns it has printed exactly one thing on
    standard output, as its last act: the help text; or, without a write
    flag, the normalised text of the file; or, with one, the line
    "Formatted " and the path, after writing the file. *)
Theorem main_ts_returns_after_one_print events :
  MainTs.main remarkParse remarkStringify deno [] = (Cli.Done tt, events) ->
  exists before line,
    events = before ++ [Cli.Stdout line]
    /\ (forall other, ~ In (Cli.Stdout other) before)
    /\ (line = MainTs.HELP_MESSAGE /\ before = []
        \/ (Cli.shouldWrite parsed = false
            /\ exists path source,
                 Cli.filePath parsed = Some path
                 /\ Cli.readTextFile deno path = Cli.Gives source
                 /\ fst (normalize source []) = Ok line)
        \/ (Cli.shouldWrite parsed = true
            /\ exists path text,
                 Cli.filePath parsed = Some path
                 /\ line = JS.lit "Formatted " ++ path
                 /\ In (Cli.Write path text) before)).
Proof.
  unfold normalize, parsed. clear normalize parsed.
  intros R. open_run R.
  repeat io_step.
  - exists [], MainTs.HELP_MESSAGE.
    split; [reflexivity|]. split; [intros other []|].
    left. split; reflexivity.
  - eexists; eexists. split; [reflexivity|].
    split; [intros other I; in_trace|].
    right; right. split; [reflexivity|].
    eexists; eexists. split; [reflexivity|]. split; [reflexivity|].
    apply in_or_app. right. left. reflexivity.
  - eexists; eexists. split; [reflexivity|].
    split; [intros other I; in_trace|].
    right; left. split; [reflexivity|].
    eexists; eexists. split; [reflexivity|]. split; [eassumption|].
    match goal with H : normalizeMarkdown _ _ _ _ = _ |- _ =>
      rewrite H end. reflexivity.
Qed.

End MainTsRuns.

Section Part002Runs.
Variable remarkParse : str -> Result Node.
Variable remarkStringify : Options -> Node -> Result str.
Variable deno : Cli.Deno.

Let parsed := Cli.parseArgs (Cli.args deno).
Let normalize := normalizeMarkdown remarkParse remarkStringify.

(** X15.  Whatever the arguments are and whatever Deno, the parser and
    the stringifier answer, a run of the shell of part_002 does not end in
    an uncaught throw: it returns, or it ends the process with code 1. *)
Theorem part002_main_never_throws :
  exists events,
    Part002.main remarkParse remarkStringify deno [] = (Cli.Done tt, events)
    \/ Part002.main remarkParse remarkStringify deno [] =
       (Cli.Exit 1, events).
Proof.
  unfold Part002.main.
  set (p := Cli.parseArgs (Cli.args deno)). clearbody p.
  io_unfold.
  repeat io_goal_step;
    eexists; first [left; reflexivity | right; reflexivity].
Qed.

(** X16.  A run of the shell of part_002 reads no file but the one named
    on the command line, reads standard input only when no file is named
    and no write flag is given, and writes only when a write flag is
    given and the path is not the empty string: then it writes to the file
    it read, and what it writes is the normalised text of what it read. *)
Theorem part002_file_access outcome events :
  Part002.main remarkParse remarkStringify deno [] = (outcome, events) ->
  (forall path, In (Cli.Read path) events ->
     Cli.filePath parsed = Some path)
  /\ (In Cli.ReadStdin events ->
      Cli.filePath parsed = None /\ Cli.shouldWrite parsed = false)
  /\ (forall path text, In (Cli.Write path text) events ->
        Cli.shouldWrite parsed = true
        /\ Cli.filePath parsed = Some path
        /\ path <> []
        /\ exists source,
             Cli.readTextFile deno path = Cli.Gives source
             /\ fst (normalize source []) = Ok text).
Proof.
  unfold normalize, parsed. clear normalize parsed.
  intros R. open_run R.
  split; [|split].
  - intros path I. repeat io_step; in_trace; auto.
  - intros I. repeat io_step; in_trace;
      rewrite ?andb_true_r in *; split; first [reflexivity | assumption].
  - intros path text I. repeat io_step; in_trace;
      match goal with
      | H : _ && JS.truthy _ = true |- _ =>
          apply andb_true_iff in H as [? ?]
      end;
      (split; [assumption|]; split; [reflexivity|];
       split; [intros ->; discriminate|];
       eexists; split; [eassumption|];
       match goal with H : normalizeMarkdown _ _ _ _ = _ |- _ =>
         rewrite H end; reflexivity).
Qed.

(** X17.  With a file named on the command line (not the empty
    string) and no help flag, every run of main.ts that returns is
    matched by the shell of part_002: it returns too, after the same
    events. *)
Theorem part002_agrees_with_main_ts_on_success events :
  Cli.showHelp parsed = false ->
  Cli.args deno <> [] ->
  Cli.filePath parsed <> Some [] ->
  MainTs.main remarkParse remarkStringify deno [] = (Cli.Done tt, events) ->
  Part002.main remarkParse remarkStringify deno [] = (Cli.Done tt, events).
Proof.
  unfold parsed. clear normalize parsed.
  intros H A F R.
  assert (L : Nat.eqb (List.length (Cli.args deno)) 0 = false).
  { destruct (Cli.args deno); [contradiction | reflexivity]. }
  open_run R. rewrite H, L in *. cbv beta iota in *.
  repeat io_step;
    match goal with
    | F : Some ?s <> Some [] |- _ =>
        destruct s; [exfalso; apply F; reflexivity|]
    end;
    cbn [orb andb JS.truthy]; cbv beta iota; reflexivity.
Qed.


End Part002Runs.

(** ** Closed instances *)

Lemma without_targets_normalize_is_base_processor_witness :
  JS.eqb (Demo.text [JS.lit "```python"; Demo.padded; JS.lit "```"])
    JS.empty = false
  /\ Demo.parse (Demo.text [JS.lit "```python"; Demo.padded; JS.lit "```"]) =
     Ok (Demo.one Demo.pythonNode)
  /\ (forall node, In node (codes (Demo.one Demo.pythonNode)) ->
        isFormatTarget node = false)
  /\ normalizeMarkdown Demo.parse Demo.stringify
       (Demo.text [JS.lit "```python"; Demo.padded; JS.lit "```"]) [] =
     process (baseProcessor Demo.parse Demo.stringify)
       (Demo.text [JS.lit "```python"; Demo.padded; JS.lit "```"]) [].
Proof.
  assert (H : forall node, In node (codes (Demo.one Demo.pythonNode)) ->
                isFormatTarget node = false).
  { intros node [<-|[]]. reflexivity. }
  split; [reflexivity|]. split; [reflexivity|]. split; [exact H|].
  apply (without_targets_normalize_is_base_processor
           Demo.parse Demo.stringify
           (Demo.text [JS.lit "```python"; Demo.padded; JS.lit "```"])
           (Demo.one Demo.pythonNode) []); [reflexivity|reflexivity|exact H].
Defined.

Lemma normalize_throws_from_outer_steps_only_witness :
  JS.eqb [0%N] JS.empty = false
  /\ (normalizeMarkdown Demo.parse Demo.stringify [0%N] [] =
      (Throw Demo.nul, []) <->
      (Demo.parse [0%N] = Throw Demo.nul /\ @nil str = [])
      \/ (exists tree tree',
            Demo.parse [0%N] = Ok tree
            /\ remarkRecursiveFormat Demo.parse Demo.stringify tree [] =
               (Ok tree', [])
            /\ Demo.stringify stringifyOptions tree' = Throw Demo.nul)).
Proof.
  split; [reflexivity|].
  apply (normalize_throws_from_outer_steps_only Demo.parse Demo.stringify
           [0%N] [] Demo.nul []). reflexivity.
Defined.

Lemma part000_agrees_when_no_block_is_empty_witness :
  (forall node, In node (codes (Demo.one Demo.lowerNode)) ->
     value node <> [])
  /\ Part000.remarkRecursiveFormat Demo.parse Demo.stringify
       (Demo.one Demo.lowerNode) [] =
     remarkRecursiveFormat Demo.parse Demo.stringify
       (Demo.one Demo.lowerNode) [].
Proof.
  assert (H : forall node, In node (codes (Demo.one Demo.lowerNode)) ->
                value node <> []).
  { intros node [<-|[]]. discriminate. }
  split; [exact H|].
  apply (part000_agrees_when_no_block_is_empty Demo.parse Demo.stringify
           (Demo.one Demo.lowerNode) [] H).
Defined.

Lemma part001_agrees_on_lower_case_tags_witness :
  (forall node, In node (codes (Demo.one Demo.lowerNode)) ->
     value node <> []
     /\ forall l, lang node = Some l -> JS.asciiLower l = l)
  /\ Part001.remarkRecursiveFormat Demo.parse Demo.stringify JS.asciiLower
       (Demo.one Demo.lowerNode) [] =
     remarkRecursiveFormat Demo.parse Demo.stringify
       (Demo.one Demo.lowerNode) [].
Proof.
  assert (H : forall node, In node (codes (Demo.one Demo.lowerNode)) ->
                value node <> []
                /\ forall l, lang node = Some l -> JS.asciiLower l = l).
  { intros node [<-|[]]. split; [discriminate|].
    intros l E. injection E as <-. reflexivity. }
  split; [exact H|].
  apply (part001_agrees_on_lower_case_tags Demo.parse Demo.stringify
           JS.asciiLower (Demo.one Demo.lowerNode) [] H).
Defined.

Lemma main_ts_file_access_witness :
  MainTs.main Demo.parse Demo.stringify
    (DemoShell.deno DemoShell.writeBack) [] =
  (Cli.Done tt, DemoShell.writeBackEvents)
  /\ ((forall path, In (Cli.Read path) DemoShell.writeBackEvents ->
         Cli.filePath
           (Cli.parseArgs (Cli.args (DemoShell.deno DemoShell.writeBack))) =
         Some path
         /\ Cli.showHelp
              (Cli.parseArgs (Cli.args (DemoShell.deno DemoShell.writeBack)))
            = false)
      /\ ~ In Cli.ReadStdin DemoShell.writeBackEvents
      /\ (forall path text,
            In (Cli.Write path text) DemoShell.writeBackEvents ->
            Cli.shouldWrite
              (Cli.parseArgs (Cli.args (DemoShell.deno DemoShell.writeBack)))
            = true
            /\ Cli.filePath
                 (Cli.parseArgs
                    (Cli.args (DemoShell.deno DemoShell.writeBack))) =
               Some path
            /\ exists source,
                 Cli.readTextFile (DemoShell.deno DemoShell.writeBack) path =
                 Cli.Gives source
                 /\ fst (normalizeMarkdown Demo.parse Demo.stringify
                           source []) = Ok text)).
Proof.
  split; [reflexivity|].
  apply (main_ts_file_access Demo.parse Demo.stringify
           (DemoShell.deno DemoShell.writeBack)
           (Cli.Done tt) DemoShell.writeBackEvents).
  reflexivity.
Defined.

Lemma main_ts_exit_is_one_with_message_witness :
  MainTs.main Demo.parse Demo.stringify
    (DemoShell.deno DemoShell.noSuchFile) [] =
  (Cli.Exit 1, DemoShell.noSuchFileEvents)
  /\ (1%N = 1%N
      /\ (exists before line,
            DemoShell.noSuchFileEvents = before ++ [Cli.Stderr line])
      /\ forall line, ~ In (Cli.Stdout line) DemoShell.noSuchFileEvents).
Proof.
  split; [reflexivity|].
  apply (main_ts_exit_is_one_with_message Demo.parse Demo.stringify
           (DemoShell.deno DemoShell.noSuchFile) 1%N
           DemoShell.noSuchFileEvents).
  reflexivity.
Defined.

Lemma main_ts_returns_after_one_print_witness :
  MainTs.main Demo.parse Demo.stringify
    (DemoShell.deno DemoShell.writeBack) [] =
  (Cli.Done tt, DemoShell.writeBackEvents)
  /\ exists before line,
      DemoShell.writeBackEvents = before ++ [Cli.Stdout line]
      /\ (forall other, ~ In (Cli.Stdout other) before)
      /\ (line = MainTs.HELP_MESSAGE /\ before = []
          \/ (Cli.shouldWrite
                (Cli.parseArgs
                   (Cli.args (DemoShell.deno DemoShell.writeBack))) = false
              /\ exists path source,
                   Cli.filePath
                     (Cli.parseArgs
                        (Cli.args (DemoShell.deno DemoShell.writeBack))) =
                   Some path
                   /\ Cli.readTextFile (DemoShell.deno DemoShell.writeBack)
                        path = Cli.Gives source
                   /\ fst (normalizeMarkdown Demo.parse Demo.stringify
                             source []) = Ok line)
          \/ (Cli.shouldWrite
                (Cli.parseArgs
                   (Cli.args (DemoShell.deno DemoShell.writeBack))) = true
              /\ exists path text,
                   Cli.filePath
                     (Cli.parseArgs
                        (Cli.args (DemoShell.deno DemoShell.writeBack))) =
                   Some path
                   /\ line = JS.lit "Formatted " ++ path
                   /\ In (Cli.Write path text) before)).
Proof.
  split; [reflexivity|].
  apply (main_ts_returns_after_one_print Demo.parse Demo.stringify
           (DemoShell.deno DemoShell.writeBack) DemoShell.writeBackEvents).
  reflexivity.
Defined.

Lemma part002_file_access_witness :
  Part002.main Demo.parse Demo.stringify
    (DemoShell.deno DemoShell.writeBack) [] =
  (Cli.Done tt, DemoShell.writeBackEvents)
  /\ ((forall path, In (Cli.Read path) DemoShell.writeBackEvents ->
         Cli.filePath
           (Cli.parseArgs (Cli.args (DemoShell.deno DemoShell.writeBack))) =
         Some path)
      /\ (In Cli.ReadStdin DemoShell.writeBackEvents ->
          Cli.filePath
            (Cli.parseArgs (Cli.args (DemoShell.deno DemoShell.writeBack))) =
          None
          /\ Cli.shouldWrite
               (Cli.parseArgs (Cli.args (DemoShell.deno DemoShell.writeBack)))
             = false)
      /\ (forall path text,
            In (Cli.Write path text) DemoShell.writeBackEvents ->
            Cli.shouldWrite
              (Cli.parseArgs (Cli.args (DemoShell.deno DemoShell.writeBack)))
            = true
            /\ Cli.filePath
                 (Cli.parseArgs
                    (Cli.args (DemoShell.deno DemoShell.writeBack))) =
               Some path
            /\ path <> []
            /\ exists source,
                 Cli.readTextFile (DemoShell.deno DemoShell.writeBack) path =
                 Cli.Gives source
                 /\ fst (normalizeMarkdown Demo.parse Demo.stringify
                           source []) = Ok text)).
Proof.
  split; [reflexivity|].
  apply (part002_file_access Demo.parse Demo.stringify
           (DemoShell.deno DemoShell.writeBack)
           (Cli.Done tt) DemoShell.writeBackEvents).
  reflexivity.
Defined.

Lemma part002_agrees_with_main_ts_on_success_witness :
  Cli.showHelp
    (Cli.parseArgs (Cli.args (DemoShell.deno DemoShell.writeBack))) = false
  /\ Cli.args (DemoShell.deno DemoShell.writeBack) <> []
  /\ Cli.filePath
       (Cli.parseArgs (Cli.args (DemoShell.deno DemoShell.writeBack))) <>
     Some []
  /\ MainTs.main Demo.parse Demo.stringify
       (DemoShell.deno DemoShell.writeBack) [] =
     (Cli.Done tt, DemoShell.writeBackEvents)
  /\ Part002.main Demo.parse Demo.stringify
       (DemoShell.deno DemoShell.writeBack) [] =
     (Cli.Done tt, DemoShell.writeBackEvents).
Proof.
  split; [reflexivity|]. split; [discriminate|]. split; [discriminate|].
  split; [reflexivity|].
  apply (part002_agrees_with_main_ts_on_success Demo.parse Demo.stringify
           (DemoShell.deno DemoShell.writeBack) DemoShell.writeBackEvents);
    [reflexivity | discriminate | discriminate | reflexivity].
Defined.


(** The exception of X18 at work. *)
Example empty_path_with_write_flag :
  MainTs.main Demo.parse Demo.stringify DemoEmptyPath.deno [] =
  (Cli.Raise (Cli.NotFound (JS.lit "No such file or directory")),
   [Cli.Read []; Cli.Write [] DemoShell.formatted])
  /\ Part002.main Demo.parse Demo.stringify DemoEmptyPath.deno [] =
     (Cli.Done tt, [Cli.Read []; Cli.Stdout DemoShell.formatted]).
Proof. split; reflexivity. Qed.

(** With nothing on the command line and a pipe on standard input, the
    shell of part_002 formats the pipe; main.ts prints its help. *)
Example piped_input :
  DemoShell.part002 [] =
  (Cli.Done tt,
   [Cli.ReadStdin; Cli.Stdout (Demo.text [JS.lit "- item two"])])
  /\ DemoShell.mainTs [] = (Cli.Done tt, [Cli.Stdout MainTs.HELP_MESSAGE]).
Proof. split; reflexivity. Qed.
